(** * pi_control_hub_driver_dmpa6: the Eversolo DMP-A6 driver, embedded in Rocq

    The development follows the package layout of the Python sources:

    - [eversolo]: the HTTP control client ([eversolo.py]);
    - [icons]: the icon loader ([icons/__init__.py]);
    - [commands]: the command classes and the catalog ([commands.py]);
    - [device_driver]: the driver facade, the zeroconf listener and the
      driver descriptor with its device cache ([device_driver.py]).

    Python values that come out of [json.loads] are values of type [json];
    a call that may raise returns a [result]; code that also changes an
    object or talks to the network runs in the monad [M] over the state it
    changes.  Everything outside the package (network, file system, the
    [json], [lirc], [zeroconf] and [uuid] libraries) is collected in a
    record [Env] of oracles, over which every statement is quantified. *)

From Stdlib Require Import ZArith.
From stdpp Require Import base option list strings gmap pretty.

Set Warnings "-register-all".

Local Open Scope Z_scope.
Local Open Scope string_scope.

(** ** Python values and exceptions *)

(** The values [json.loads] builds.  A [dict] keeps its insertion order, so
    it is an association list; its keys are strings.  A float is kept as the
    literal it was read from. *)
Inductive json : Type :=
  | JNull
  | JBool (b : bool)
  | JInt (z : Z)
  | JFloat (literal : string)
  | JStr (s : string)
  | JList (items : list json)
  | JDict (fields : list (string * json)).

(** The exceptions the package raises or lets through. *)
Inductive exn : Type :=
  | AssertionError (msg : string)
  | TypeError (msg : string)
  | KeyError (key : string)
  | IndexError (msg : string)
  | JSONDecodeError (doc : string)
  | LircdConnectionError
  | CommandNotFoundException (driver_name : string) (cmd_id : Z)
  | DeviceNotFoundException (device_id : string)
  | OSError (msg : string).

Inductive result (A : Type) : Type :=
  | Ok (a : A)
  | Raise (e : exn).
Arguments Ok {A} a.
Arguments Raise {A} e.

(** What an awaited call can end in.  [RaisesBase] is an exception that
    is not an [Exception] ([asyncio.CancelledError], [KeyboardInterrupt],
    [SystemExit]): a clause [except Exception] does not catch it. *)
Inductive outcome (A : Type) : Type :=
  | Returns (a : A)
  | Raises (e : exn)
  | RaisesBase (name : string).
Arguments Returns {A} a.
Arguments Raises {A} e.
Arguments RaisesBase {A} name.

Definition result_bind {A B} (r : result A) (k : A -> result B) : result B :=
  match r with
  | Ok a => k a
  | Raise e => Raise e
  end.

(** [M S A]: a computation over a mutable state [S] that returns an [A] or
    raises.  The state reached when the exception is raised is kept. *)
Definition M (S A : Type) : Type := S -> result A * S.

Definition ret {S A} (a : A) : M S A := fun s => (Ok a, s).
Definition raise {S A} (e : exn) : M S A := fun s => (Raise e, s).
Definition bind {S A B} (m : M S A) (k : A -> M S B) : M S B :=
  fun s => match m s with
           | (Ok a, s') => k a s'
           | (Raise e, s') => (Raise e, s')
           end.
Definition lift {S A} (r : result A) : M S A := fun s => (r, s).
Definition get {S} : M S S := fun s => (Ok s, s).
Definition modify {S} (f : S -> S) : M S unit := fun s => (Ok tt, f s).

Declare Scope py_scope.
Delimit Scope py_scope with py.
Notation "x <- m ;; k" := (bind m (fun x => k))
  (at level 100, m at next level, right associativity) : py_scope.
Notation "m ;;; k" := (bind m (fun _ => k))
  (at level 100, right associativity) : py_scope.
Notation "x <~ r ;; k" := (result_bind r (fun x => k))
  (at level 100, r at next level, right associativity) : py_scope.
Local Open Scope py_scope.

(** Unfolding the monad in a goal. *)
Ltac run :=
  unfold bind, ret, raise, lift, get, modify, result_bind in *; simpl in *.

(** [d[key]] for a string [key]: only a [dict] can be indexed by a string. *)
Fixpoint assoc (key : string) (fields : list (string * json)) : option json :=
  match fields with
  | [] => None
  | (k, v) :: rest => if String.eqb k key then Some v else assoc key rest
  end.

Definition getitem (v : json) (key : string) : result json :=
  match v with
  | JDict fields =>
      match assoc key fields with
      | Some x => Ok x
      | None => Raise (KeyError key)
      end
  | JList _ => Raise (TypeError "list indices must be integers or slices, not str")
  | JStr _ => Raise (TypeError "string indices must be integers, not 'str'")
  | _ => Raise (TypeError "object is not subscriptable")
  end.

(** [f[key]] where [f] is a function object: a function has no
    [__getitem__], so Python raises [TypeError] before looking at [key]. *)
Definition function_not_subscriptable : exn :=
  TypeError "'function' object is not subscriptable".

Definition function_getitem {A K} (key : K) : result A :=
  Raise function_not_subscriptable.

(** [l[0]] on a Python list. *)
Definition list_getitem0 {A} (l : list A) : result A :=
  match l with
  | x :: _ => Ok x
  | [] => Raise (IndexError "list index out of range")
  end.

(** Iterating over a decoded value, as [map(f, v)] does: a list yields its
    items, a dict its keys, a string its characters. *)
Definition py_iter (v : json) : result (list json) :=
  match v with
  | JList items => Ok items
  | JDict fields => Ok (map (fun kv => JStr (fst kv)) fields)
  | JStr s => Ok (map (fun c => JStr (String c EmptyString)) (String.list_ascii_of_string s))
  | _ => Raise (TypeError "object is not iterable")
  end.

Fixpoint mapM {A B} (f : A -> result B) (l : list A) : result (list B) :=
  match l with
  | [] => Ok []
  | x :: rest => y <~ f x ;; ys <~ mapM f rest ;; Ok (y :: ys)
  end.

(** ** The world outside the package *)

(** One outbound request. *)
Inductive event : Type :=
  | HttpGet (url : string).

Definition trace := list event.

(** An opaque handle on the connection to [lircd]. *)
Inductive lirc_Client : Type := LircClientHandle.

Record Env : Type := {
  (** [aiohttp]: the body of the response to a GET, or the error raised. *)
  session_get : string -> result string;
  (** [requests.get(url, timeout=10).text]. *)
  requests_get : string -> result string;
  (** [json.loads]: [None] when the text is not JSON. *)
  json_loads : string -> option json;
  (** [json.dumps]. *)
  json_dumps : json -> string;
  (** [lirc.Client()]. *)
  lirc_connect : result lirc_Client;
  (** [open(path, mode="rb").read()] for a file of the icons directory. *)
  read_icon_file : string -> result string;
  (** [zc.get_service_info(type_, name)], reduced to [parsed_addresses()]. *)
  get_service_info : string -> string -> option (list string);
  (** [str(uuid4())]. *)
  uuid4 : string
}.

Definition loads (env : Env) (text : string) : result json :=
  match json_loads env text with
  | Some v => Ok v
  | None => Raise (JSONDecodeError text)
  end.

(** ** eversolo.py *)
Module eversolo.
Section WithEnv.
Context (env : Env).

Definition default_port : Z := 9529.

(** [f"http://{ip_address}:{port}{uri}"] *)
Definition url_of (ip_address : string) (port : Z) (uri : string) : string :=
  "http://" +:+ ip_address +:+ ":" +:+ pretty port +:+ uri.

Definition connect_uri (client_name client_uuid : string) : string :=
  "/ZidooControlCenter/connect?name=" +:+ client_name +:+ "&uuid=" +:+ client_uuid
    +:+ "&tag=0&type=1".

(** The GET of an [aiohttp] session, recorded in the trace. *)
Definition http_get (url : string) : M trace string :=
  modify (fun t => (t ++ [HttpGet url])%list) ;;; lift (session_get env url).

Definition assert_given (arg : option string) (msg : string) : result string :=
  match arg with
  | Some s => Ok s
  | None => Raise (AssertionError msg)
  end.

Definition connect_device (ip_address : string) (port : Z)
    (client_name client_uuid : option string) : result json :=
  name <~ assert_given client_name "client_name must be given" ;;
  uuid <~ assert_given client_uuid "device_uuid must be given" ;;
  let url := url_of ip_address port (connect_uri name uuid) in
  text <~ requests_get env url ;;
  loads env text.

Definition _execute_command (ip_address : string) (port : Z) (uri : string)
    : M trace json :=
  let url := url_of ip_address port uri in
  response_text <- http_get url ;;
  response_json <- lift (loads env response_text) ;;
  ret response_json.

(** Every control call has the same body: run the command, read
    [response["status"]], and do nothing with it (both branches of the
    comparison with 200 are [pass]). *)
Definition play_or_pause (ip_address : string) (port : Z) : M trace unit :=
  response <- _execute_command ip_address port "/ZidooMusicControl/v2/playOrPause" ;;
  _ <- lift (getitem response "status") ;; ret tt.

Definition increase_volume (ip_address : string) (port : Z) : M trace unit :=
  response <- _execute_command ip_address port
                "/ZidooControlCenter/RemoteControl/sendkey?key=Key.VolumeUp" ;;
  _ <- lift (getitem response "status") ;; ret tt.

Definition decrease_volume (ip_address : string) (port : Z) : M trace unit :=
  response <- _execute_command ip_address port
                "/ZidooControlCenter/RemoteControl/sendkey?key=Key.VolumeDown" ;;
  _ <- lift (getitem response "status") ;; ret tt.

Definition next_track (ip_address : string) (port : Z) : M trace unit :=
  response <- _execute_command ip_address port "/ZidooMusicControl/v2/playNext" ;;
  _ <- lift (getitem response "status") ;; ret tt.

Definition previous_track (ip_address : string) (port : Z) : M trace unit :=
  response <- _execute_command ip_address port "/ZidooMusicControl/v2/playLast" ;;
  _ <- lift (getitem response "status") ;; ret tt.

Definition change_vu_display (ip_address : string) (port : Z) : M trace unit :=
  response <- _execute_command ip_address port "/ZidooMusicControl/v2/changVUDisplay" ;;
  _ <- lift (getitem response "status") ;; ret tt.

Definition toggle_screen (ip_address : string) (port : Z) : M trace unit :=
  response <- _execute_command ip_address port
                "/ZidooMusicControl/v2/setPowerOption?tag=screen" ;;
  _ <- lift (getitem response "status") ;; ret tt.

Definition set_input_internal_player (ip_address : string) (port : Z) : M trace unit :=
  response <- _execute_command ip_address port
                "/ZidooMusicControl/v2/setInputList?tag=XMOS&index=4" ;;
  _ <- lift (getitem response "status") ;; ret tt.

Definition set_input_bluetooth (ip_address : string) (port : Z) : M trace unit :=
  response <- _execute_command ip_address port
                "/ZidooMusicControl/v2/setInputList?tag=BT&index=4" ;;
  _ <- lift (getitem response "status") ;; ret tt.

Definition set_input_usb (ip_address : string) (port : Z) : M trace unit :=
  response <- _execute_command ip_address port
                "/ZidooMusicControl/v2/setInputList?tag=USB&index=4" ;;
  _ <- lift (getitem response "status") ;; ret tt.

Definition set_input_optical (ip_address : string) (port : Z) : M trace unit :=
  response <- _execute_command ip_address port
                "/ZidooMusicControl/v2/setInputList?tag=SPDIF&index=4" ;;
  _ <- lift (getitem response "status") ;; ret tt.

Definition set_input_coax (ip_address : string) (port : Z) : M trace unit :=
  response <- _execute_command ip_address port
                "/ZidooMusicControl/v2/setInputList?tag=RCA&index=4" ;;
  _ <- lift (getitem response "status") ;; ret tt.

Definition set_output_balxlr (ip_address : string) (port : Z) : M trace unit :=
  response <- _execute_command ip_address port
                "/ZidooMusicControl/v2/setOutInputList?tag=XLR&index=0" ;;
  _ <- lift (getitem response "status") ;; ret tt.

Definition set_output_analog_rca (ip_address : string) (port : Z) : M trace unit :=
  response <- _execute_command ip_address port
                "/ZidooMusicControl/v2/setOutInputList?tag=RCA&index=0" ;;
  _ <- lift (getitem response "status") ;; ret tt.

Definition set_output_xlr_rca (ip_address : string) (port : Z) : M trace unit :=
  response <- _execute_command ip_address port
                "/ZidooMusicControl/v2/setOutInputList?tag=XLRRCA&index=0" ;;
  _ <- lift (getitem response "status") ;; ret tt.

Definition set_output_hdmi (ip_address : string) (port : Z) : M trace unit :=
  response <- _execute_command ip_address port
                "/ZidooMusicControl/v2/setOutInputList?tag=HDMI&index=0" ;;
  _ <- lift (getitem response "status") ;; ret tt.

Definition set_output_spdif (ip_address : string) (port : Z) : M trace unit :=
  response <- _execute_command ip_address port
                "/ZidooMusicControl/v2/setOutInputList?tag=SPDIF&index=0" ;;
  _ <- lift (getitem response "status") ;; ret tt.

Definition set_output_usb (ip_address : string) (port : Z) : M trace unit :=
  response <- _execute_command ip_address port
                "/ZidooMusicControl/v2/setOutInputList?tag=USB&index=0" ;;
  _ <- lift (getitem response "status") ;; ret tt.

(** The control calls of the module with the path each one requests. *)
Definition control_calls : list (string * (string -> Z -> M trace unit)) :=
  [ ("/ZidooMusicControl/v2/playOrPause", play_or_pause);
    ("/ZidooControlCenter/RemoteControl/sendkey?key=Key.VolumeUp", increase_volume);
    ("/ZidooControlCenter/RemoteControl/sendkey?key=Key.VolumeDown", decrease_volume);
    ("/ZidooMusicControl/v2/playNext", next_track);
    ("/ZidooMusicControl/v2/playLast", previous_track);
    ("/ZidooMusicControl/v2/changVUDisplay", change_vu_display);
    ("/ZidooMusicControl/v2/setPowerOption?tag=screen", toggle_screen);
    ("/ZidooMusicControl/v2/setInputList?tag=XMOS&index=4", set_input_internal_player);
    ("/ZidooMusicControl/v2/setInputList?tag=BT&index=4", set_input_bluetooth);
    ("/ZidooMusicControl/v2/setInputList?tag=USB&index=4", set_input_usb);
    ("/ZidooMusicControl/v2/setInputList?tag=SPDIF&index=4", set_input_optical);
    ("/ZidooMusicControl/v2/setInputList?tag=RCA&index=4", set_input_coax);
    ("/ZidooMusicControl/v2/setOutInputList?tag=XLR&index=0", set_output_balxlr);
    ("/ZidooMusicControl/v2/setOutInputList?tag=RCA&index=0", set_output_analog_rca);
    ("/ZidooMusicControl/v2/setOutInputList?tag=XLRRCA&index=0", set_output_xlr_rca);
    ("/ZidooMusicControl/v2/setOutInputList?tag=HDMI&index=0", set_output_hdmi);
    ("/ZidooMusicControl/v2/setOutInputList?tag=SPDIF&index=0", set_output_spdif);
    ("/ZidooMusicControl/v2/setOutInputList?tag=USB&index=0", set_output_usb) ].
End WithEnv.

Section WithSession.
(** [session.get(url)] followed by [await response.json()], as [aiohttp]
    answers for the URL: the decoded body, an exception (no connection, a
    Content-Type that is not JSON, a body that does not decode), or the
    cancellation of the task at the [await]. *)
Context (session_get_json : string -> outcome json).

Definition connect_device_async (ip_address : string) (port : Z)
    (client_name client_uuid : option string) : trace -> outcome json * trace :=
  fun t =>
    match assert_given client_name "client_name must be given" with
    | Raise e => (Raises e, t)
    | Ok name =>
        match assert_given client_uuid "device_uuid must be given" with
        | Raise e => (Raises e, t)
        | Ok uuid =>
            let url := url_of ip_address port (connect_uri name uuid) in
            (session_get_json url, (t ++ [HttpGet url])%list)
        end
    end.
End WithSession.
End eversolo.

(** ** icons/__init__.py *)
Module icons.
Section WithEnv.
Context (env : Env).

(** The icon taken from its file.  The module also keeps the bytes it
    has read in a table keyed by path; [icon_table.__read_icon] below is
    the function with that table, and on a table that holds what the
    files hold the two return the same ([read_icon_sound_step],
    [create_commands_table_refines]). *)
Definition __read_icon (filename : string) : result string :=
  read_icon_file env filename.

Definition toggle_power := __read_icon "toggle-power.png".
Definition toggle_display := __read_icon "toggle-display.png".
Definition toggle_vu := __read_icon "toggle-vu.png".
Definition volume_up := __read_icon "volume-up.png".
Definition volume_down := __read_icon "volume-down.png".
Definition play_pause := __read_icon "play-pause.png".
Definition play_previous := __read_icon "play-previous.png".
Definition play_next := __read_icon "play-next.png".

Definition in_bluetooth := __read_icon "in-bluetooth.png".
Definition in_coax := __read_icon "in-coax.png".
Definition in_internal_player := __read_icon "in-internal-player.png".
Definition in_optical := __read_icon "in-optical.png".
Definition in_usb := __read_icon "in-usb.png".
Definition out_analog_rca := __read_icon "out-analog-rca.png".
Definition out_balxlr := __read_icon "out-balxlr.png".
Definition out_hdmi := __read_icon "out-hdmi.png".
Definition out_spdif := __read_icon "out-spdif.png".
Definition out_usb_dac := __read_icon "out-usb-dac.png".
Definition out_xlr_rca := __read_icon "out-xlr-rca.png".

Definition icon_files : list string :=
  [ "toggle-power.png"; "toggle-display.png"; "toggle-vu.png"; "volume-up.png";
    "volume-down.png"; "play-pause.png"; "play-next.png"; "play-previous.png";
    "in-internal-player.png"; "in-bluetooth.png"; "in-usb.png"; "in-optical.png";
    "in-coax.png"; "out-balxlr.png"; "out-analog-rca.png"; "out-xlr-rca.png";
    "out-hdmi.png"; "out-spdif.png"; "out-usb-dac.png" ].
End WithEnv.
End icons.

(** ** commands.py *)
Module commands.

(** A callback is one of the control calls of [eversolo]; it is called
    with the address only, so its port is the default one. *)
Definition CallbackType : Type := string -> Z -> M trace unit.

(** The two command classes.  Both extend the host's [DeviceCommand],
    which holds [id], [title] and [icon]. *)
Inductive DeviceCommand : Type :=
  | DmpA6HttpDeviceCommand (cmd_id : Z) (title : string) (icon : string)
      (_ip_address : string) (_callback : CallbackType)
  | DmpA6PowerToggleCommand (cmd_id : Z) (title : string) (icon : string)
      (_ip_address : string) (_lirc_client : option lirc_Client).

Definition cmd_id (c : DeviceCommand) : Z :=
  match c with
  | DmpA6HttpDeviceCommand i _ _ _ _ => i
  | DmpA6PowerToggleCommand i _ _ _ _ => i
  end.

Definition title (c : DeviceCommand) : string :=
  match c with
  | DmpA6HttpDeviceCommand _ t _ _ _ => t
  | DmpA6PowerToggleCommand _ t _ _ _ => t
  end.

Definition _ip_address (c : DeviceCommand) : string :=
  match c with
  | DmpA6HttpDeviceCommand _ _ _ a _ => a
  | DmpA6PowerToggleCommand _ _ _ a _ => a
  end.

(** Command IDs *)
Definition TOGGLE_POWER : Z := 1.
Definition TOGGLE_DISPLAY : Z := 2.
Definition TOGGLE_VU : Z := 3.
Definition VOLUME_UP : Z := 4.
Definition VOLUME_DOWN : Z := 5.
Definition PLAY_PAUSE : Z := 6.
Definition PLAY_NEXT : Z := 7.
Definition PLAY_PREVIOUS : Z := 8.

Definition INPUT_INTERNAL_PLAYER : Z := 10.
Definition INPUT_BLUETOOTH : Z := 11.
Definition INPUT_USB : Z := 12.
Definition INPUT_OPTICAL : Z := 13.
Definition INPUT_COAX : Z := 14.
Definition OUTPUT_BALXLR : Z := 15.
Definition OUTPUT_ANALOG_RCA : Z := 16.
Definition OUTPUT_XLR_RCA : Z := 17.
Definition OUTPUT_HDMI : Z := 18.
Definition OUTPUT_SPDIF : Z := 19.
Definition OUTPUT_USB_DAC : Z := 20.

(** The IDs above, in the order in which [create_commands] uses them. *)
Definition catalog_ids : list Z :=
  [1; 2; 3; 4; 5; 6; 7; 8; 10; 11; 12; 13; 14; 15; 16; 17; 18; 19; 20].

(** A list display evaluates its items from left to right; the first
    item that raises ends the evaluation. *)
Fixpoint sequence {A} (items : list (result A)) : result (list A) :=
  match items with
  | [] => Ok []
  | r :: rest => x <~ r ;; xs <~ sequence rest ;; Ok (x :: xs)
  end.

Section WithEnv.
Context (env : Env).

(** [eversolo.py] defines no [power_off], although [commands.py] imports
    it and the power toggle calls it: the call is a parameter here. *)
Context (power_off : string -> M trace unit).

(** [DmpA6PowerToggleCommand.__init__]: only [LircdConnectionError] is
    caught; the command then has no infrared client. *)
Definition DmpA6PowerToggleCommand__init__ (cmd_id : Z) (title icon device_id : string)
    : result DeviceCommand :=
  match lirc_connect env with
  | Ok client => Ok (DmpA6PowerToggleCommand cmd_id title icon device_id (Some client))
  | Raise LircdConnectionError =>
      Ok (DmpA6PowerToggleCommand cmd_id title icon device_id None)
  | Raise e => Raise e
  end.

Definition execute (c : DeviceCommand) : M trace unit :=
  match c with
  | DmpA6HttpDeviceCommand _ _ _ ip callback => callback ip eversolo.default_port
  | DmpA6PowerToggleCommand _ _ _ ip None => power_off ip
  | DmpA6PowerToggleCommand _ _ _ ip (Some _) =>
      (* use lirc to toggle power *)
      ret tt
  end.

Definition create_commands (device_id : string) : result (list DeviceCommand) :=
  sequence [
    (icon <~ icons.toggle_power env ;;
     DmpA6PowerToggleCommand__init__ TOGGLE_POWER "On/Off" icon device_id);

    (icon <~ icons.toggle_display env ;;
     Ok (DmpA6HttpDeviceCommand TOGGLE_DISPLAY "Display on/off" icon device_id
           (eversolo.toggle_screen env)));
    (icon <~ icons.toggle_vu env ;;
     Ok (DmpA6HttpDeviceCommand TOGGLE_VU "Change VU" icon device_id
           (eversolo.change_vu_display env)));
    (icon <~ icons.volume_up env ;;
     Ok (DmpA6HttpDeviceCommand VOLUME_UP "Volume +" icon device_id
           (eversolo.increase_volume env)));
    (icon <~ icons.volume_down env ;;
     Ok (DmpA6HttpDeviceCommand VOLUME_DOWN "Volume -" icon device_id
           (eversolo.decrease_volume env)));
    (icon <~ icons.play_pause env ;;
     Ok (DmpA6HttpDeviceCommand PLAY_PAUSE "Play/Pause" icon device_id
           (eversolo.play_or_pause env)));
    (icon <~ icons.play_next env ;;
     Ok (DmpA6HttpDeviceCommand PLAY_NEXT "Next Track" icon device_id
           (eversolo.next_track env)));
    (icon <~ icons.play_previous env ;;
     Ok (DmpA6HttpDeviceCommand PLAY_PREVIOUS "Previous Track" icon device_id
           (eversolo.previous_track env)));

    (icon <~ icons.in_internal_player env ;;
     Ok (DmpA6HttpDeviceCommand INPUT_INTERNAL_PLAYER "Input: Internal Player" icon
           device_id (eversolo.set_input_internal_player env)));
    (icon <~ icons.in_bluetooth env ;;
     Ok (DmpA6HttpDeviceCommand INPUT_BLUETOOTH "Input: Bluetooth" icon device_id
           (eversolo.set_input_bluetooth env)));
    (icon <~ icons.in_usb env ;;
     Ok (DmpA6HttpDeviceCommand INPUT_USB "Input: USB" icon device_id
           (eversolo.set_input_usb env)));
    (icon <~ icons.in_optical env ;;
     Ok (DmpA6HttpDeviceCommand INPUT_OPTICAL "Input: Optical" icon device_id
           (eversolo.set_input_optical env)));
    (icon <~ icons.in_coax env ;;
     Ok (DmpA6HttpDeviceCommand INPUT_COAX "Input: Coax" icon device_id
           (eversolo.set_input_coax env)));

    (icon <~ icons.out_balxlr env ;;
     Ok (DmpA6HttpDeviceCommand OUTPUT_BALXLR "Output: Balanced XLR" icon device_id
           (eversolo.set_output_balxlr env)));
    (icon <~ icons.out_analog_rca env ;;
     Ok (DmpA6HttpDeviceCommand OUTPUT_ANALOG_RCA "Output: Analog RCA" icon device_id
           (eversolo.set_output_analog_rca env)));
    (icon <~ icons.out_xlr_rca env ;;
     Ok (DmpA6HttpDeviceCommand OUTPUT_XLR_RCA "Output: XLR/RCA" icon device_id
           (eversolo.set_output_xlr_rca env)));
    (icon <~ icons.out_hdmi env ;;
     Ok (DmpA6HttpDeviceCommand OUTPUT_HDMI "Output: HDMI" icon device_id
           (eversolo.set_output_hdmi env)));
    (icon <~ icons.out_spdif env ;;
     Ok (DmpA6HttpDeviceCommand OUTPUT_SPDIF "Output: " icon device_id
           (eversolo.set_output_spdif env)));
    (icon <~ icons.out_usb_dac env ;;
     Ok (DmpA6HttpDeviceCommand OUTPUT_USB_DAC "Output: " icon device_id
           (eversolo.set_output_usb env)))
  ].
End WithEnv.
End commands.

(** ** device_driver.py *)
Module device_driver.
Import commands.

(** The host's [DeviceInfo(name, device_id)]; both fields are declared
    [str]. *)
Record DeviceInfo : Type := { name : string; device_id : string }.

(** Building a [DeviceInfo] from decoded JSON.  The record is typed after
    the host's declaration, so the two values have to be JSON strings;
    Python itself does not check this, and a reply with another kind of
    value in these fields lies outside the typed model. *)
Definition as_str (v : json) : result string :=
  match v with
  | JStr s => Ok s
  | _ => Raise (TypeError "DeviceInfo field is not a str")
  end.

Definition DeviceInfo__init__ (name device_id : json) : result DeviceInfo :=
  n <~ as_str name ;; i <~ as_str device_id ;; Ok {| name := n; device_id := i |}.

(** *** DmpA6DeviceDriver *)

Record DmpA6DeviceDriver : Type := {
  device_info : DeviceInfo;
  _commands : list DeviceCommand
}.

Definition remote_layout_size : Z * Z := (3, 9).

Definition remote_layout : list (list Z) :=
  [ [TOGGLE_POWER; TOGGLE_DISPLAY; TOGGLE_VU];
    [VOLUME_DOWN; -1; VOLUME_UP];
    [PLAY_PREVIOUS; PLAY_PAUSE; PLAY_NEXT];
    [-1; -1; -1];
    [INPUT_INTERNAL_PLAYER; INPUT_BLUETOOTH; INPUT_USB];
    [INPUT_OPTICAL; -1; INPUT_COAX];
    [-1; -1; -1];
    [OUTPUT_BALXLR; OUTPUT_ANALOG_RCA; OUTPUT_XLR_RCA];
    [OUTPUT_HDMI; OUTPUT_SPDIF; OUTPUT_USB_DAC] ].

(** [remote_layout[row][col]] *)
Definition layout_cell (row col : nat) : option Z :=
  remote_layout !! row ≫= fun r => r !! col.

Definition get_commands : M DmpA6DeviceDriver (list DeviceCommand) :=
  self <- get ;; ret (_commands self).

(** [self.name] is the host's property: the name of the device. *)
Definition get_command (cmd_id : Z) : M DmpA6DeviceDriver DeviceCommand :=
  cmds <- get_commands ;;
  self <- get ;;
  let result := filter (fun c => commands.cmd_id c = cmd_id) cmds in
  match result with
  | c :: _ => ret c
  | [] => raise (CommandNotFoundException (name (device_info self)) cmd_id)
  end.

Definition client_name : string := "PiControlHub".
Definition client_uuid : string := "f6c4ad46-f0d3-11ee-a951-0242ac120002".

Section WithEnv.
Context (env : Env) (power_off : string -> M trace unit).

Definition DmpA6DeviceDriver__init__ (device_info : DeviceInfo)
    : result DmpA6DeviceDriver :=
  cmds <~ create_commands env (device_id device_info) ;;
  Ok {| device_info := device_info; _commands := cmds |}.

Definition execute (command : DeviceCommand) : M trace unit :=
  commands.execute power_off command.

(** The handshake of [eversolo.connect_device_async], see there. *)
Context (session_get_json : string -> outcome json).

(** [True] when the handshake returns; [except Exception] turns an
    exception into [False] and lets what is not an [Exception] through. *)
Definition is_device_ready (self : DmpA6DeviceDriver) : trace -> outcome bool * trace :=
  fun t =>
    match eversolo.connect_device_async session_get_json (device_id (device_info self))
            eversolo.default_port (Some client_name) (Some client_uuid) t with
    | (Returns _, t') => (Returns true, t')
    | (Raises _, t') => (Returns false, t')
    | (RaisesBase name, t') => (RaisesBase name, t')
    end.

(** *** ZeroconfBrowser *)

Record ZeroconfBrowser : Type := { _devices : list DeviceInfo }.

Definition update_service (type_ name : string) : M ZeroconfBrowser unit := ret tt.
Definition remove_service (type_ name : string) : M ZeroconfBrowser unit := ret tt.

(** The body of the [try] block of [add_service]. *)
Definition confirm_device (addresses : list string) : result DeviceInfo :=
  address <~ list_getitem0 addresses ;;
  raw_device_info <~ eversolo.connect_device env address eversolo.default_port
                       (Some client_name) (Some client_uuid) ;;
  device <~ getitem raw_device_info "device" ;;
  device_name <~ getitem device "name" ;;
  device' <~ getitem raw_device_info "device" ;;
  device_host <~ getitem device' "host" ;;
  DeviceInfo__init__ device_name device_host.

Definition add_service (type_ name : string) : M ZeroconfBrowser unit :=
  match get_service_info env type_ name with
  | Some addresses =>
      match confirm_device addresses with
      | Ok device_info =>
          modify (fun self => {| _devices := _devices self ++ [device_info] |})
      | Raise ex => ret tt
      end
  | None => ret tt
  end.

Definition devices (self : ZeroconfBrowser) : list DeviceInfo := _devices self.

(** *** DmpA6DeviceDriverDescriptor *)

(** What the descriptor works on: the browser singleton it shares with
    the zeroconf thread, and the [dbm] file [eversolo.cache], a store
    from byte strings to byte strings.  Opening the file with flag ["c"]
    creates it when it is missing; a missing file and an empty one
    answer every lookup alike, so both are the empty map.  Every
    [dbm.open] is taken to succeed; the handle that [__init__] opens is
    not used again. *)
Record Descriptor : Type := {
  _zeroconf_browser : ZeroconfBrowser;
  _filecache : gmap string string
}.

Definition cache_key : string := "cached_devices".

Definition device_from_json (d : json) : result DeviceInfo :=
  n <~ getitem d "name" ;; i <~ getitem d "device_id" ;; DeviceInfo__init__ n i.

Definition _cached_devices : M Descriptor (list DeviceInfo) :=
  self <- get ;;
  match _filecache self !! cache_key with
  | Some jsn =>
      (* devices_jsn = json.loads[jsn] *)
      devices_jsn <- lift (function_getitem (A := json) jsn) ;;
      items <- lift (py_iter devices_jsn) ;;
      devices <- lift (mapM device_from_json items) ;;
      ret devices
  | None => ret (devices (_zeroconf_browser self))
  end.

Definition device_to_json (d : DeviceInfo) : json :=
  JDict [("name", JStr (name d)); ("device_id", JStr (device_id d))].

Definition _cache_devices (devices : list DeviceInfo) : M Descriptor unit :=
  let devices_jsn := map device_to_json devices in
  let jsn := json_dumps env (JList devices_jsn) in
  modify (fun self =>
    {| _zeroconf_browser := _zeroconf_browser self;
       _filecache := <[cache_key := jsn]> (_filecache self) |}).

(** The descriptor as [_cache_devices] leaves it. *)
Definition cached (live : list DeviceInfo) (self : Descriptor) : Descriptor :=
  {| _zeroconf_browser := _zeroconf_browser self;
     _filecache :=
       <[cache_key := json_dumps env (JList (map device_to_json live))]>
         (_filecache self) |}.

Definition get_devices : M Descriptor (list DeviceInfo) :=
  self <- get ;;
  if (length (devices (_zeroconf_browser self)) =? 0)%nat then _cached_devices
  else
    _cache_devices (devices (_zeroconf_browser self)) ;;;
    self' <- get ;;
    ret (devices (_zeroconf_browser self')).

Definition get_device (device_id : string) : M Descriptor DeviceInfo :=
  listed <- get_devices ;;
  let devices := filter (fun d => device_driver.device_id d = device_id) listed in
  match devices with
  | [] => raise (DeviceNotFoundException device_id)
  | d :: _ => ret d
  end.

Definition start_pairing (device_info : DeviceInfo) (remote_name : string)
    : M Descriptor (string * bool) :=
  ret (uuid4 env, false).

Definition finalize_pairing (pairing_request credentials : string)
    (device_provides_pin : bool) : M Descriptor bool :=
  ret true.

Definition create_device_instance (device_id : string)
    : M Descriptor DmpA6DeviceDriver :=
  info <- get_device device_id ;;
  lift (DmpA6DeviceDriver__init__ info).

(** The operations the host calls on the descriptor, and the state each
    one leaves behind. *)
Inductive registry_op : Type :=
  | GetDevices
  | GetDevice (device_id : string)
  | CreateDeviceInstance (device_id : string)
  | StartPairing (device_info : DeviceInfo) (remote_name : string)
  | FinalizePairing (pairing_request credentials : string) (device_provides_pin : bool).

Definition run_op (op : registry_op) (self : Descriptor) : Descriptor :=
  match op with
  | GetDevices => snd (get_devices self)
  | GetDevice i => snd (get_device i self)
  | CreateDeviceInstance i => snd (create_device_instance i self)
  | StartPairing d r => snd (start_pairing d r self)
  | FinalizePairing p c b => snd (finalize_pairing p c b self)
  end.
End WithEnv.
End device_driver.

(** ** Concrete environments

    The statements below hold for every [Env].  The closed examples run the
    code in the environments of this module. *)
Module fixtures.
Import commands device_driver.

Definition dquote : string := String (Ascii.ascii_of_nat 34) EmptyString.

Definition quoted (s : string) : string := dquote +:+ s +:+ dquote.

Fixpoint join (sep : string) (parts : list string) : string :=
  match parts with
  | [] => EmptyString
  | [p] => p
  | p :: rest => p +:+ sep +:+ join sep rest
  end.

(** A printer that agrees with [json.dumps] on values whose strings are
    printable ASCII without quote or backslash. *)
Fixpoint dumps (v : json) : string :=
  match v with
  | JNull => "null"
  | JBool true => "true"
  | JBool false => "false"
  | JInt z => pretty z
  | JFloat literal => literal
  | JStr s => quoted s
  | JList items => "[" +:+ join ", " (map dumps items) +:+ "]"
  | JDict fields =>
      "{" +:+ join ", " (map (fun kv => quoted (fst kv) +:+ ": " +:+ dumps (snd kv)) fields)
        +:+ "}"
  end.

(** A device at 192.168.1.50 and what it answers to the handshake. *)
Definition dmp_address : string := "192.168.1.50".

Definition handshake_reply : json :=
  JDict [("status", JInt 200);
         ("device", JDict [("name", JStr "DMP-A6"); ("host", JStr dmp_address)])].

Definition handshake_body : string := dumps handshake_reply.

(** What a web server answers that is not the device. *)
Definition gateway_body : string := "<html>502 Bad Gateway</html>".

(** A decoder that knows the handshake body and rejects every other
    text; the other bodies of the examples are not JSON. *)
Definition decode (text : string) : option json :=
  if String.eqb text handshake_body then Some handshake_reply else None.

Definition adb_type : string := "_adb._tcp.local.".
Definition dmp_service : string := "DMP-A6._adb._tcp.local.".

(** The device is announced and answers the handshake; the control port
    is answered by something that does not speak JSON; no [lircd] is
    running. *)
Definition env_no_lirc : Env := {|
  session_get := fun url => Ok gateway_body;
  requests_get := fun url => Ok handshake_body;
  json_loads := decode;
  json_dumps := dumps;
  lirc_connect := Raise LircdConnectionError;
  read_icon_file := fun filename => Ok ("PNG:" +:+ filename);
  get_service_info := fun type_ name =>
    if String.eqb name dmp_service then Some [dmp_address] else None;
  uuid4 := "0b0f1c1e-5f0a-4c57-9d43-7a2f3c1d9e10"
|}.

(** The same, with [lircd] running. *)
Definition env_lirc : Env := {|
  session_get := session_get env_no_lirc;
  requests_get := requests_get env_no_lirc;
  json_loads := decode;
  json_dumps := dumps;
  lirc_connect := Ok LircClientHandle;
  read_icon_file := read_icon_file env_no_lirc;
  get_service_info := get_service_info env_no_lirc;
  uuid4 := uuid4 env_no_lirc
|}.

Definition dmp : DeviceInfo := {| name := "DMP-A6"; device_id := dmp_address |}.

Definition idle_browser : ZeroconfBrowser := {| _devices := [] |}.

(** No device discovered, nothing cached. *)
Definition fresh : Descriptor :=
  {| _zeroconf_browser := idle_browser; _filecache := ∅ |}.

(** One device discovered, nothing cached. *)
Definition discovered : Descriptor :=
  {| _zeroconf_browser := {| _devices := [dmp] |}; _filecache := ∅ |}.

(** After a restart: the list of the last run is cached, nothing is
    discovered yet. *)
Definition restarted : Descriptor :=
  {| _zeroconf_browser := idle_browser;
     _filecache := {[ cache_key := dumps (JList [device_to_json dmp]) ]} |}.

(** A catalog as a driver holds it. *)
Definition driver_with (cmds : list DeviceCommand) : DmpA6DeviceDriver :=
  {| device_info := dmp; _commands := cmds |}.

(** The catalog built for the device when no [lircd] is running, and a
    driver holding it. *)
Definition dmp_catalog : list DeviceCommand :=
  match create_commands env_no_lirc dmp_address with
  | Ok cmds => cmds
  | Raise _ => []
  end.

Definition dmp_driver : DmpA6DeviceDriver := driver_with dmp_catalog.

(** A stand-in for the missing [power_off]: one GET on a path of its own. *)
Definition power_off_stub : string -> M trace unit :=
  fun ip => modify (fun t => (t ++ [HttpGet (eversolo.url_of ip 9529 "/power-off")])%list).
End fixtures.

(** ** icons/__init__.py with its table, ressources/__init__.py

    [icons.__read_icon] above reads the file on every call.  The module
    itself keeps what it has read in the table [__image_data]; this is
    the function with that table, and with the list of files it opens. *)
Module icon_table.

Definition starts_with_sep (p : string) : bool := String.prefix "/" p.

Fixpoint ends_with_sep (p : string) : bool :=
  match p with
  | EmptyString => false
  | String c EmptyString => String.eqb (String c EmptyString) "/"
  | String _ rest => ends_with_sep rest
  end.

Definition is_empty (p : string) : bool :=
  match p with
  | EmptyString => true
  | String _ _ => false
  end.

(** [os.path.join(a, b)] of [posixpath]. *)
Definition os_path_join (a b : string) : string :=
  if starts_with_sep b then b
  else if is_empty a || ends_with_sep a then a +:+ b
  else a +:+ "/" +:+ b.

Record State : Type := {
  __image_data : gmap string string;
  opened : list string
}.

(** Every entry of the table is what the file system holds at its path. *)
Definition table_sound (open_rb : string -> result string) (st : State) : Prop :=
  forall filepath data, __image_data st !! filepath = Some data -> open_rb filepath = Ok data.

Section WithFiles.
Context (__directory : string) (open_rb : string -> result string).

Definition read_file (path : string) : M State string :=
  modify (fun st => {| __image_data := __image_data st;
                       opened := (opened st ++ [path])%list |}) ;;;
  lift (open_rb path).

Definition __read_icon (filename : string) : M State string :=
  let filepath := os_path_join __directory filename in
  st <- get ;;
  match __image_data st !! filepath with
  | Some data => ret data
  | None =>
      data <- read_file (os_path_join __directory filename) ;;
      modify (fun st => {| __image_data := <[filepath := data]> (__image_data st);
                           opened := opened st |}) ;;;
      ret data
  end.
End WithFiles.
End icon_table.

Module ressources.

(** The module's global [__piirc_config], and how often the file was
    opened. *)
Record State : Type := {
  __piirc_config : option string;
  opened : nat
}.

Section WithFiles.
(** [open(__piirc_filepath, encoding="utf-8").read()]. *)
Context (read_piirc_file : result string).

Definition get_piirc_config : M State string :=
  st <- get ;;
  match __piirc_config st with
  | None =>
      modify (fun st => {| __piirc_config := __piirc_config st; opened := S (opened st) |}) ;;;
      file_content <- lift read_piirc_file ;;
      modify (fun st => {| __piirc_config := Some file_content; opened := opened st |}) ;;;
      ret file_content
  | Some config => ret config
  end.
End WithFiles.
End ressources.

(** ** commands.py over the icon table

    [commands.create_commands] above takes each icon from the file; this
    is [create_commands] with the icon functions as the module has them,
    each going through the table of [__read_icon]. *)
Module catalog_table.
Import commands.

(** A list display whose items change the state, evaluated from left to
    right; the first item that raises ends the evaluation. *)
Fixpoint sequenceM {S A} (items : list (M S A)) : M S (list A) :=
  match items with
  | [] => ret []
  | m :: rest => x <- m ;; xs <- sequenceM rest ;; ret (x :: xs)
  end.

(** [env] with the icon files read from [open_rb] in [__directory]. *)
Definition with_icon_files (env : Env) (__directory : string)
    (open_rb : string -> result string) : Env := {|
  session_get := session_get env;
  requests_get := requests_get env;
  json_loads := json_loads env;
  json_dumps := json_dumps env;
  lirc_connect := lirc_connect env;
  read_icon_file := fun filename => open_rb (icon_table.os_path_join __directory filename);
  get_service_info := get_service_info env;
  uuid4 := uuid4 env
|}.

Section WithFiles.
Context (env : Env) (__directory : string) (open_rb : string -> result string).

Definition __read_icon : string -> M icon_table.State string :=
  icon_table.__read_icon __directory open_rb.

Definition toggle_power := __read_icon "toggle-power.png".
Definition toggle_display := __read_icon "toggle-display.png".
Definition toggle_vu := __read_icon "toggle-vu.png".
Definition volume_up := __read_icon "volume-up.png".
Definition volume_down := __read_icon "volume-down.png".
Definition play_pause := __read_icon "play-pause.png".
Definition play_previous := __read_icon "play-previous.png".
Definition play_next := __read_icon "play-next.png".

Definition in_bluetooth := __read_icon "in-bluetooth.png".
Definition in_coax := __read_icon "in-coax.png".
Definition in_internal_player := __read_icon "in-internal-player.png".
Definition in_optical := __read_icon "in-optical.png".
Definition in_usb := __read_icon "in-usb.png".
Definition out_analog_rca := __read_icon "out-analog-rca.png".
Definition out_balxlr := __read_icon "out-balxlr.png".
Definition out_hdmi := __read_icon "out-hdmi.png".
Definition out_spdif := __read_icon "out-spdif.png".
Definition out_usb_dac := __read_icon "out-usb-dac.png".
Definition out_xlr_rca := __read_icon "out-xlr-rca.png".

Definition create_commands (device_id : string) : M icon_table.State (list DeviceCommand) :=
  sequenceM [
    (icon <- toggle_power ;;
     lift (DmpA6PowerToggleCommand__init__ env TOGGLE_POWER "On/Off" icon device_id));

    (icon <- toggle_display ;;
     ret (DmpA6HttpDeviceCommand TOGGLE_DISPLAY "Display on/off" icon device_id
            (eversolo.toggle_screen env)));
    (icon <- toggle_vu ;;
     ret (DmpA6HttpDeviceCommand TOGGLE_VU "Change VU" icon device_id
            (eversolo.change_vu_display env)));
    (icon <- volume_up ;;
     ret (DmpA6HttpDeviceCommand VOLUME_UP "Volume +" icon device_id
            (eversolo.increase_volume env)));
    (icon <- volume_down ;;
     ret (DmpA6HttpDeviceCommand VOLUME_DOWN "Volume -" icon device_id
            (eversolo.decrease_volume env)));
    (icon <- play_pause ;;
     ret (DmpA6HttpDeviceCommand PLAY_PAUSE "Play/Pause" icon device_id
            (eversolo.play_or_pause env)));
    (icon <- play_next ;;
     ret (DmpA6HttpDeviceCommand PLAY_NEXT "Next Track" icon device_id
            (eversolo.next_track env)));
    (icon <- play_previous ;;
     ret (DmpA6HttpDeviceCommand PLAY_PREVIOUS "Previous Track" icon device_id
            (eversolo.previous_track env)));

    (icon <- in_internal_player ;;
     ret (DmpA6HttpDeviceCommand INPUT_INTERNAL_PLAYER "Input: Internal Player" icon
            device_id (eversolo.set_input_internal_player env)));
    (icon <- in_bluetooth ;;
     ret (DmpA6HttpDeviceCommand INPUT_BLUETOOTH "Input: Bluetooth" icon device_id
            (eversolo.set_input_bluetooth env)));
    (icon <- in_usb ;;
     ret (DmpA6HttpDeviceCommand INPUT_USB "Input: USB" icon device_id
            (eversolo.set_input_usb env)));
    (icon <- in_optical ;;
     ret (DmpA6HttpDeviceCommand INPUT_OPTICAL "Input: Optical" icon device_id
            (eversolo.set_input_optical env)));
    (icon <- in_coax ;;
     ret (DmpA6HttpDeviceCommand INPUT_COAX "Input: Coax" icon device_id
            (eversolo.set_input_coax env)));

    (icon <- out_balxlr ;;
     ret (DmpA6HttpDeviceCommand OUTPUT_BALXLR "Output: Balanced XLR" icon device_id
            (eversolo.set_output_balxlr env)));
    (icon <- out_analog_rca ;;
     ret (DmpA6HttpDeviceCommand OUTPUT_ANALOG_RCA "Output: Analog RCA" icon device_id
            (eversolo.set_output_analog_rca env)));
    (icon <- out_xlr_rca ;;
     ret (DmpA6HttpDeviceCommand OUTPUT_XLR_RCA "Output: XLR/RCA" icon device_id
            (eversolo.set_output_xlr_rca env)));
    (icon <- out_hdmi ;;
     ret (DmpA6HttpDeviceCommand OUTPUT_HDMI "Output: HDMI" icon device_id
            (eversolo.set_output_hdmi env)));
    (icon <- out_spdif ;;
     ret (DmpA6HttpDeviceCommand OUTPUT_SPDIF "Output: " icon device_id
            (eversolo.set_output_spdif env)));
    (icon <- out_usb_dac ;;
     ret (DmpA6HttpDeviceCommand OUTPUT_USB_DAC "Output: " icon device_id
            (eversolo.set_output_usb env)))
  ].
End WithFiles.
End catalog_table.

(** ** The listener over a run of announcements, the paths of the catalog *)
Module discovery.
Import commands device_driver.

(** What zeroconf reports to the listener. *)
Inductive listener_event : Type :=
  | ServiceAdded (type_ name : string)
  | ServiceUpdated (type_ name : string)
  | ServiceRemoved (type_ name : string).

Definition is_added (ev : listener_event) : bool :=
  match ev with
  | ServiceAdded _ _ => true
  | _ => false
  end.

Section WithEnv.
Context (env : Env).

Definition handle (ev : listener_event) : M ZeroconfBrowser unit :=
  match ev with
  | ServiceAdded type_ name => add_service env type_ name
  | ServiceUpdated type_ name => update_service type_ name
  | ServiceRemoved type_ name => remove_service type_ name
  end.

(** The browser after the events, in the order they arrive. *)
Fixpoint run_events (events : list listener_event) (self : ZeroconfBrowser)
    : ZeroconfBrowser :=
  match events with
  | [] => self
  | ev :: rest => run_events rest (snd (handle ev self))
  end.
End WithEnv.

(** The path each HTTP command of [create_commands] requests: the path
    in the control call that is its callback. *)
Definition command_paths : list (Z * string) :=
  [ (TOGGLE_DISPLAY, "/ZidooMusicControl/v2/setPowerOption?tag=screen");
    (TOGGLE_VU, "/ZidooMusicControl/v2/changVUDisplay");
    (VOLUME_UP, "/ZidooControlCenter/RemoteControl/sendkey?key=Key.VolumeUp");
    (VOLUME_DOWN, "/ZidooControlCenter/RemoteControl/sendkey?key=Key.VolumeDown");
    (PLAY_PAUSE, "/ZidooMusicControl/v2/playOrPause");
    (PLAY_NEXT, "/ZidooMusicControl/v2/playNext");
    (PLAY_PREVIOUS, "/ZidooMusicControl/v2/playLast");
    (INPUT_INTERNAL_PLAYER, "/ZidooMusicControl/v2/setInputList?tag=XMOS&index=4");
    (INPUT_BLUETOOTH, "/ZidooMusicControl/v2/setInputList?tag=BT&index=4");
    (INPUT_USB, "/ZidooMusicControl/v2/setInputList?tag=USB&index=4");
    (INPUT_OPTICAL, "/ZidooMusicControl/v2/setInputList?tag=SPDIF&index=4");
    (INPUT_COAX, "/ZidooMusicControl/v2/setInputList?tag=RCA&index=4");
    (OUTPUT_BALXLR, "/ZidooMusicControl/v2/setOutInputList?tag=XLR&index=0");
    (OUTPUT_ANALOG_RCA, "/ZidooMusicControl/v2/setOutInputList?tag=RCA&index=0");
    (OUTPUT_XLR_RCA, "/ZidooMusicControl/v2/setOutInputList?tag=XLRRCA&index=0");
    (OUTPUT_HDMI, "/ZidooMusicControl/v2/setOutInputList?tag=HDMI&index=0");
    (OUTPUT_SPDIF, "/ZidooMusicControl/v2/setOutInputList?tag=SPDIF&index=0");
    (OUTPUT_USB_DAC, "/ZidooMusicControl/v2/setOutInputList?tag=USB&index=0") ].

Fixpoint command_path (i : Z) (table : list (Z * string)) : option string :=
  match table with
  | [] => None
  | (j, path) :: rest => if Z.eqb i j then Some path else command_path i rest
  end.

(** The URL of the handshake with the device at [ip]. *)
Definition handshake_url (ip : string) : string :=
  eversolo.url_of ip eversolo.default_port (eversolo.connect_uri client_name client_uuid).

(** How often an ID stands on the layout. *)
Definition layout_count (i : Z) : nat :=
  length (filter (fun x => x = i) (concat remote_layout)).

(** The descriptor once the listener has seen the events. *)
Definition after_events env (events : list listener_event) (self : Descriptor)
    : Descriptor :=
  {| _zeroconf_browser := run_events env events (_zeroconf_browser self);
     _filecache := _filecache self |}.
End discovery.

(** ** More environments *)
Module scenes.
Import commands device_driver fixtures.

Fixpoint decode_table (table : list (string * json)) (text : string) : option json :=
  match table with
  | [] => None
  | (body, v) :: rest => if String.eqb text body then Some v else decode_table rest text
  end.

Definition status_reply (status : Z) : json := JDict [("status", JInt status)].

Definition bodies : list (string * json) :=
  [ (handshake_body, handshake_reply);
    (dumps (status_reply 200), status_reply 200);
    (dumps (status_reply 500), status_reply 500);
    (dumps (JDict []), JDict []) ].

(** An environment like [env_no_lirc], with the answers of the control
    port, of the handshake and of the resolver given. *)
Definition scene (control handshake : string -> result string)
    (resolve : string -> string -> option (list string)) : Env := {|
  session_get := control;
  requests_get := handshake;
  json_loads := decode_table bodies;
  json_dumps := dumps;
  lirc_connect := Raise LircdConnectionError;
  read_icon_file := read_icon_file env_no_lirc;
  get_service_info := resolve;
  uuid4 := uuid4 env_no_lirc
|}.

Definition resolve_dmp : string -> string -> option (list string) :=
  get_service_info env_no_lirc.

(** The device answers every control call with status 500. *)
Definition env_status_500 : Env :=
  scene (fun url => Ok (dumps (status_reply 500))) (fun url => Ok handshake_body) resolve_dmp.

(** The device answers every request with an empty JSON object. *)
Definition env_empty_object : Env :=
  scene (fun url => Ok (dumps (JDict []))) (fun url => Ok (dumps (JDict []))) resolve_dmp.

(** The device answers the handshake on the control port. *)
Definition env_ready : Env :=
  scene (fun url => Ok handshake_body) (fun url => Ok handshake_body) resolve_dmp.

(** The service resolves to two addresses; nothing answers at the first. *)
Definition env_first_address_down : Env :=
  scene (fun url => Raise (OSError "Connection refused"))
    (fun url =>
       if String.prefix "http://10.0.0.7:" url then Raise (OSError "Connection refused")
       else Ok handshake_body)
    (fun type_ name => Some ["10.0.0.7"; dmp_address]).

(** The service resolves to no address. *)
Definition env_no_address : Env :=
  scene (fun url => Ok gateway_body) (fun url => Ok handshake_body)
    (fun type_ name => Some []).

(** An icon file is missing. *)
Definition env_icon_missing : Env := {|
  session_get := session_get env_no_lirc;
  requests_get := requests_get env_no_lirc;
  json_loads := json_loads env_no_lirc;
  json_dumps := dumps;
  lirc_connect := Raise LircdConnectionError;
  read_icon_file := fun filename =>
    if String.eqb filename "out-hdmi.png" then Raise (OSError "No such file or directory")
    else Ok ("PNG:" +:+ filename);
  get_service_info := resolve_dmp;
  uuid4 := uuid4 env_no_lirc
|}.

(** The files of the icons directory. *)
Definition icons_dir : string := "/opt/driver/icons".

Definition icon_disk (path : string) : result string :=
  if bool_decide (path ∈ map (icon_table.os_path_join icons_dir) icons.icon_files)
  then Ok ("PNG:" +:+ path)
  else Raise (OSError "No such file or directory").

Definition no_icons_read : icon_table.State :=
  {| icon_table.__image_data := ∅; icon_table.opened := [] |}.

(** The table after a run that read the icons, on a disk that has lost
    them since. *)
Definition icons_read : icon_table.State :=
  snd (catalog_table.create_commands env_no_lirc icons_dir icon_disk dmp_address
         no_icons_read).

Definition empty_disk (path : string) : result string :=
  Raise (OSError "No such file or directory").

Definition config_unread : ressources.State :=
  {| ressources.__piirc_config := None; ressources.opened := 0 |}.
End scenes.

(** * Properties *)

Import commands device_driver fixtures discovery scenes.

(** ** The command catalog *)

Lemma sequence_Ok {A} (items : list (result A)) (xs : list A) :
  sequence items = Ok xs -> Forall2 (fun r x => r = Ok x) items xs.
Proof.
  revert xs. induction items as [|r rest IH]; intros xs H; simpl in H.
  - injection H as <-. constructor.
  - destruct r as [x|e]; simpl in H; [|discriminate].
    destruct (sequence rest) as [ys|e]; simpl in H; [|discriminate].
    injection H as <-. constructor; [reflexivity | apply IH; reflexivity].
Qed.

Lemma sequence_all_Ok {A} (items : list (result A)) :
  Forall (fun r => exists x, r = Ok x) items -> exists xs, sequence items = Ok xs.
Proof.
  induction 1 as [|r rest [x ->] _ [xs IH]]; simpl.
  - eexists; reflexivity.
  - rewrite IH. simpl. eexists; reflexivity.
Qed.

(** The power toggle is built whenever [lirc.Client()] returns or raises
    [LircdConnectionError]; it keeps the ID and the address it was given. *)
Lemma power_toggle_init_Ok env i t ic d c :
  DmpA6PowerToggleCommand__init__ env i t ic d = Ok c ->
  cmd_id c = i /\ commands._ip_address c = d.
Proof.
  unfold DmpA6PowerToggleCommand__init__.
  destruct (lirc_connect env) as [cl|[]]; intros H; try discriminate;
    injection H as <-; split; reflexivity.
Qed.

(** Whatever the environment, a catalog that [create_commands] returns
    carries the nineteen IDs in the order of the source, each command bound
    to the address given. *)
Lemma create_commands_ids env device_id cmds :
  create_commands env device_id = Ok cmds ->
  map cmd_id cmds = catalog_ids /\
  Forall (fun c => commands._ip_address c = device_id) cmds.
Proof.
  intros H. apply sequence_Ok in H.
  repeat match goal with
  | H : Forall2 _ (_ :: _) _ |- _ => apply Forall2_cons_inv_l in H as (? & ? & ? & ? & ->)
  | H : Forall2 _ [] _ |- _ => apply Forall2_nil_inv_l in H as ->
  end.
  repeat match goal with
  | H : result_bind ?r _ = Ok _ |- _ =>
      destruct r; simpl in H; [|discriminate]
  | H : DmpA6PowerToggleCommand__init__ _ _ _ _ _ = Ok _ |- _ =>
      apply power_toggle_init_Ok in H as [? ?]
  | H : Ok _ = Ok _ |- _ => injection H as <-
  end.
  split.
  - simpl. unfold catalog_ids. f_equal. assumption.
  - repeat constructor; assumption.
Qed.

(** [create_commands] returns when the icons can be read and
    [lirc.Client()] returns or raises [LircdConnectionError]. *)
Lemma create_commands_returns env device_id :
  (forall f, f ∈ icons.icon_files -> exists bytes, read_icon_file env f = Ok bytes) ->
  (forall e, lirc_connect env = Raise e -> e = LircdConnectionError) ->
  exists cmds, create_commands env device_id = Ok cmds.
Proof.
  intros Hicons Hlirc. unfold create_commands. apply sequence_all_Ok.
  assert (Hp : forall i t ic, exists c,
             DmpA6PowerToggleCommand__init__ env i t ic device_id = Ok c).
  { intros i t ic. unfold DmpA6PowerToggleCommand__init__.
    destruct (lirc_connect env) as [cl|e] eqn:E; [eexists; reflexivity|].
    rewrite (Hlirc e eq_refl). eexists; reflexivity. }
  repeat constructor;
    match goal with
    | |- exists x, result_bind (?icon env) _ = Ok x =>
        let Hi := fresh in
        unfold icon, icons.__read_icon;
        edestruct (Hicons) as [? Hi];
          [|rewrite Hi; simpl; first [apply Hp | eexists; reflexivity]];
        unfold icons.icon_files;
        repeat first [apply list_elem_of_here | apply list_elem_of_further]
    end.
Qed.

Lemma get_command_filter (self : DmpA6DeviceDriver) (i : Z) :
  get_command i self =
    match filter (fun c => cmd_id c = i) (_commands self) with
    | c :: _ => (Ok c, self)
    | [] => (Raise (CommandNotFoundException (name (device_info self)) i), self)
    end.
Proof.
  unfold get_command, get_commands. run.
  destruct (filter _ _); reflexivity.
Qed.

(** What the first element of a filtered list is. *)
Lemma filter_first {A} (P : A -> Prop) `{!forall x, Decision (P x)} (l : list A) :
  ((exists x, x ∈ l /\ P x) ->
   exists x rest, filter P l = x :: rest /\ P x /\ x ∈ l) /\
  ((forall x, x ∈ l -> ~ P x) -> filter P l = []).
Proof.
  split.
  - intros (x & Hin & HP).
    destruct (filter P l) as [|y rest] eqn:E.
    + destruct (filter_nil_not_elem_of P l x E HP Hin).
    + assert (Hy : y ∈ filter P l) by (rewrite E; apply list_elem_of_here).
      apply list_elem_of_filter in Hy as [HPy Hiny].
      exists y, rest. repeat split; assumption.
  - intros Hnone.
    destruct (filter P l) as [|y rest] eqn:E; [reflexivity|].
    assert (Hy : y ∈ filter P l) by (rewrite E; apply list_elem_of_here).
    apply list_elem_of_filter in Hy as [HPy Hiny].
    destruct (Hnone y Hiny HPy).
Qed.

(** C5. For every command ID present in the catalog of a driver,
    [get_command] returns a command of the catalog whose ID is the given
    one (the first such command) and leaves the driver, and with it the
    catalog, as it was; for every ID that no command of the catalog
    carries, [get_command] raises [CommandNotFoundException], again without
    changing the driver. *)
Theorem get_command_found_or_not_found (self : DmpA6DeviceDriver) (i : Z) :
  ((exists c, c ∈ _commands self /\ cmd_id c = i) ->
   exists c, get_command i self = (Ok c, self) /\ cmd_id c = i /\ c ∈ _commands self /\
             head (filter (fun c => cmd_id c = i) (_commands self)) = Some c) /\
  ((forall c, c ∈ _commands self -> cmd_id c <> i) ->
   get_command i self =
     (Raise (CommandNotFoundException (name (device_info self)) i), self)).
Proof.
  rewrite get_command_filter.
  destruct (filter_first (fun c => cmd_id c = i) (_commands self)) as [Hsome Hnone].
  split.
  - intros Hex. destruct (Hsome Hex) as (c & rest & -> & Hid & Hin).
    exists c. repeat split; assumption.
  - intros Hno. rewrite (Hnone Hno). reflexivity.
Qed.

(** C9. The layout is a grid 3 wide and 9 high: [remote_layout_size] is
    [(3, 9)], [remote_layout] has 9 rows of 3 entries each, cell (0,0) is
    the ID of the power toggle and cell (1,1) is the empty slot, -1. *)
Theorem remote_layout_is_3_by_9 :
  remote_layout_size = (3, 9) /\
  length remote_layout = 9%nat /\
  Forall (fun row => length row = 3%nat) remote_layout /\
  layout_cell 0 0 = Some TOGGLE_POWER /\
  layout_cell 1 1 = Some (-1).
Proof.
  repeat split. unfold remote_layout. repeat constructor.
Qed.

(** C10. Whatever the device address, the commands of a catalog that
    [create_commands] returns have pairwise distinct IDs, and every entry
    of the layout other than -1 is the ID of a command of that catalog,
    which [get_command] returns for it on a driver holding the catalog. *)
Theorem catalog_ids_distinct_and_layout_resolves env (device_id : string)
    (cmds : list DeviceCommand) :
  create_commands env device_id = Ok cmds ->
  NoDup (map cmd_id cmds) /\
  forall row x, row ∈ remote_layout -> x ∈ row -> x <> -1 ->
    exists c, c ∈ cmds /\ cmd_id c = x /\
      forall info,
        get_command x {| device_info := info; _commands := cmds |} =
          (Ok c, {| device_info := info; _commands := cmds |}).
Proof.
  intros H. apply create_commands_ids in H as [Hids _]. split.
  - rewrite Hids. unfold catalog_ids.
    apply (bool_decide_unpack _). vm_compute. reflexivity.
  - intros row x Hrow Hx Hne.
    assert (Hcat : x ∈ catalog_ids).
    { assert (Hall : Forall (Forall (fun y => y = -1 \/ y ∈ catalog_ids)) remote_layout)
        by (apply (bool_decide_unpack _); vm_compute; reflexivity).
      rewrite Forall_forall in Hall. specialize (Hall row Hrow).
      rewrite Forall_forall in Hall. destruct (Hall x Hx) as [Heq|Hin]; [|exact Hin].
      destruct (Hne Heq). }
    rewrite <- Hids in Hcat.
    change (x ∈ cmd_id <$> cmds) in Hcat.
    apply list_elem_of_fmap in Hcat as (c0 & -> & Hin0).
    destruct (proj1 (filter_first (fun c => cmd_id c = cmd_id c0) cmds))
      as (c & rest & Hfilter & Hid & Hin); [exists c0; split; [exact Hin0|reflexivity]|].
    exists c. repeat split; try assumption.
    intros info. rewrite get_command_filter. simpl. rewrite Hfilter. reflexivity.
Qed.

Lemma get_command_found_or_not_found_witness :
  (exists c, get_command PLAY_PAUSE dmp_driver = (Ok c, dmp_driver) /\
             cmd_id c = PLAY_PAUSE /\ c ∈ _commands dmp_driver /\
             head (filter (fun c => cmd_id c = PLAY_PAUSE) (_commands dmp_driver)) = Some c) /\
  get_command 9 dmp_driver = (Raise (CommandNotFoundException "DMP-A6" 9), dmp_driver).
Proof.
  split.
  - apply (proj1 (get_command_found_or_not_found dmp_driver PLAY_PAUSE)).
    exists (DmpA6HttpDeviceCommand PLAY_PAUSE "Play/Pause" "PNG:play-pause.png" dmp_address
              (eversolo.play_or_pause env_no_lirc)).
    split; [|reflexivity].
    apply (list_elem_of_lookup_2 _ 5%nat). reflexivity.
  - apply (proj2 (get_command_found_or_not_found dmp_driver 9)).
    apply Forall_forall. simpl. unfold dmp_catalog. simpl.
    repeat constructor; intros Hc; vm_compute in Hc; discriminate Hc.
Defined.

Lemma catalog_ids_distinct_and_layout_resolves_witness :
  NoDup (map cmd_id dmp_catalog) /\
  forall row x, row ∈ remote_layout -> x ∈ row -> x <> -1 ->
    exists c, c ∈ dmp_catalog /\ cmd_id c = x /\
      forall info,
        get_command x {| device_info := info; _commands := dmp_catalog |} =
          (Ok c, {| device_info := info; _commands := dmp_catalog |}).
Proof.
  apply (catalog_ids_distinct_and_layout_resolves env_no_lirc dmp_address dmp_catalog).
  reflexivity.
Defined.

(** ** The control client *)

Lemma http_get_run env url t :
  eversolo.http_get env url t = (session_get env url, (t ++ [HttpGet url])%list).
Proof. reflexivity. Qed.

(** A body that [json.loads] rejects: the decode error leaves
    [_execute_command], after the request has gone out. *)
Lemma execute_command_raises env ip port uri body t :
  session_get env (eversolo.url_of ip port uri) = Ok body ->
  json_loads env body = None ->
  eversolo._execute_command env ip port uri t =
    (Raise (JSONDecodeError body), (t ++ [HttpGet (eversolo.url_of ip port uri)])%list).
Proof.
  intros Hget Hloads. unfold eversolo._execute_command, bind.
  rewrite http_get_run, Hget. unfold lift, loads. rewrite Hloads. reflexivity.
Qed.

(** A body that decodes: [_execute_command] returns the decoded value. *)
Lemma execute_command_returns env ip port uri body v t :
  session_get env (eversolo.url_of ip port uri) = Ok body ->
  json_loads env body = Some v ->
  eversolo._execute_command env ip port uri t =
    (Ok v, (t ++ [HttpGet (eversolo.url_of ip port uri)])%list).
Proof.
  intros Hget Hloads. unfold eversolo._execute_command, bind.
  rewrite http_get_run, Hget. unfold lift, loads. rewrite Hloads. reflexivity.
Qed.

(** C7, as the code has it.  When the body of the response is not JSON,
    [_execute_command] raises [JSONDecodeError], and so does each of the
    eighteen control calls built on it: none of them catches the exception
    and none returns a value in its place. *)
Theorem parse_failure_is_raised env ip port uri body t :
  session_get env (eversolo.url_of ip port uri) = Ok body ->
  json_loads env body = None ->
  eversolo._execute_command env ip port uri t =
    (Raise (JSONDecodeError body), (t ++ [HttpGet (eversolo.url_of ip port uri)])%list) /\
  forall f, (uri, f) ∈ eversolo.control_calls env ->
    f ip port t =
      (Raise (JSONDecodeError body), (t ++ [HttpGet (eversolo.url_of ip port uri)])%list).
Proof.
  intros Hget Hloads. split; [apply execute_command_raises; assumption|].
  intros f Hf. unfold eversolo.control_calls in Hf.
  repeat (apply elem_of_cons in Hf as [Hf|Hf];
          [injection Hf as -> ->;
           match goal with
           | |- ?g env _ _ _ = _ => unfold g, bind
           end;
           rewrite (execute_command_raises env ip port _ body t Hget Hloads);
           reflexivity|]).
  apply elem_of_nil in Hf. destruct Hf.
Qed.

Lemma parse_failure_is_raised_witness :
  eversolo._execute_command env_no_lirc dmp_address 9529
      "/ZidooMusicControl/v2/playOrPause" [] =
    (Raise (JSONDecodeError gateway_body),
     [HttpGet "http://192.168.1.50:9529/ZidooMusicControl/v2/playOrPause"]) /\
  forall f, ("/ZidooMusicControl/v2/playOrPause", f) ∈ eversolo.control_calls env_no_lirc ->
    f dmp_address 9529 [] =
      (Raise (JSONDecodeError gateway_body),
       [HttpGet "http://192.168.1.50:9529/ZidooMusicControl/v2/playOrPause"]).
Proof.
  apply (parse_failure_is_raised env_no_lirc dmp_address 9529
           "/ZidooMusicControl/v2/playOrPause" gateway_body []); reflexivity.
Defined.

(** C7 as the specification has it fails: the control port answers with a body
    that is not JSON, and [play_or_pause] ends with [JSONDecodeError]
    raised to its caller, not with a returned value. *)
Lemma play_or_pause_raises_past_the_client :
  session_get env_no_lirc (eversolo.url_of dmp_address 9529 "/ZidooMusicControl/v2/playOrPause")
    = Ok gateway_body /\
  json_loads env_no_lirc gateway_body = None /\
  eversolo.play_or_pause env_no_lirc dmp_address 9529 [] =
    (Raise (JSONDecodeError gateway_body),
     [HttpGet "http://192.168.1.50:9529/ZidooMusicControl/v2/playOrPause"]) /\
  (forall r t, eversolo.play_or_pause env_no_lirc dmp_address 9529 [] <> (Ok r, t)) /\
  commands.execute power_off_stub
      (DmpA6HttpDeviceCommand PLAY_PAUSE "Play/Pause" "PNG:play-pause.png" dmp_address
         (eversolo.play_or_pause env_no_lirc)) [] =
    (Raise (JSONDecodeError gateway_body),
     [HttpGet "http://192.168.1.50:9529/ZidooMusicControl/v2/playOrPause"]).
Proof.
  repeat split. intros r t H. vm_compute in H. discriminate H.
Qed.

(** ** The power toggle *)

(** Without [lircd] the power toggle is the call of [power_off] on the
    address the command is bound to. *)
Lemma power_toggle_without_lirc env power_off i title icon device_id :
  lirc_connect env = Raise LircdConnectionError ->
  exists c, DmpA6PowerToggleCommand__init__ env i title icon device_id = Ok c /\
            commands.execute power_off c = power_off device_id.
Proof.
  intros H. unfold DmpA6PowerToggleCommand__init__. rewrite H.
  eexists; split; reflexivity.
Qed.

(** C8, where the code departs from it.  When [lirc.Client()] returns a
    client, the power toggle command is built with it, and executing the
    command does nothing: the trace of requests is unchanged, no infrared
    code is sent and [power_off] is not called. *)
Theorem power_toggle_with_lirc_does_nothing env power_off i title icon device_id client t :
  lirc_connect env = Ok client ->
  exists c, DmpA6PowerToggleCommand__init__ env i title icon device_id = Ok c /\
            commands.execute power_off c t = (Ok tt, t).
Proof.
  intros H. unfold DmpA6PowerToggleCommand__init__. rewrite H.
  eexists; split; reflexivity.
Qed.

Lemma power_toggle_with_lirc_does_nothing_witness :
  exists c, DmpA6PowerToggleCommand__init__ env_lirc TOGGLE_POWER "On/Off"
              "PNG:toggle-power.png" dmp_address = Ok c /\
            commands.execute power_off_stub c [] = (Ok tt, []).
Proof.
  apply (power_toggle_with_lirc_does_nothing env_lirc power_off_stub TOGGLE_POWER "On/Off"
           "PNG:toggle-power.png" dmp_address LircClientHandle []).
  reflexivity.
Defined.

(** ** The device registry and its cache *)

Lemma cached_devices_run (self : Descriptor) :
  _cached_devices self =
    match _filecache self !! cache_key with
    | Some _ => (Raise function_not_subscriptable, self)
    | None => (Ok (devices (_zeroconf_browser self)), self)
    end.
Proof.
  unfold _cached_devices. run. destruct (_filecache self !! cache_key); reflexivity.
Qed.

Lemma cache_devices_run env live self :
  _cache_devices env live self = (Ok tt, cached env live self).
Proof. reflexivity. Qed.

Lemma get_devices_run env (self : Descriptor) :
  get_devices env self =
    match devices (_zeroconf_browser self) with
    | [] => _cached_devices self
    | live => (Ok live, cached env live self)
    end.
Proof.
  unfold get_devices. run.
  destruct (devices (_zeroconf_browser self)) eqn:E; simpl; [reflexivity|].
  unfold _cache_devices. run. rewrite E. reflexivity.
Qed.

(** Discovered devices are written to the cache and returned. *)
Lemma get_devices_live env self :
  devices (_zeroconf_browser self) <> [] ->
  get_devices env self =
    (Ok (devices (_zeroconf_browser self)), cached env (devices (_zeroconf_browser self)) self).
Proof.
  intros H. rewrite get_devices_run.
  destruct (devices (_zeroconf_browser self)); [destruct H|]; reflexivity.
Qed.

(** Nothing discovered and nothing cached: the empty list, no exception. *)
Lemma get_devices_nothing_cached env self :
  devices (_zeroconf_browser self) = [] ->
  _filecache self !! cache_key = None ->
  get_devices env self = (Ok [], self).
Proof.
  intros Hlive Hcache. rewrite get_devices_run, Hlive, cached_devices_run, Hcache, Hlive.
  reflexivity.
Qed.

(** C1, where the code departs from it.  With nothing discovered and an
    entry in the cache, [get_devices] does not return the cached list: the
    read of the entry subscripts [json.loads] where it means to call it,
    and [get_devices] ends with [TypeError], whatever the entry holds. *)
Theorem get_devices_raises_on_cached_entry env (self : Descriptor) (jsn : string) :
  devices (_zeroconf_browser self) = [] ->
  _filecache self !! cache_key = Some jsn ->
  get_devices env self = (Raise function_not_subscriptable, self).
Proof.
  intros Hlive Hcache. rewrite get_devices_run, Hlive, cached_devices_run, Hcache.
  reflexivity.
Qed.

Lemma get_devices_raises_on_cached_entry_witness :
  get_devices env_no_lirc restarted = (Raise function_not_subscriptable, restarted).
Proof.
  apply (get_devices_raises_on_cached_entry env_no_lirc restarted
           (dumps (JList [device_to_json dmp]))).
  - reflexivity.
  - apply lookup_singleton_eq.
Defined.

(** C2, where the code departs from it.  Writing a list of devices with
    [_cache_devices] succeeds and leaves an entry in the cache; the read
    with [_cached_devices] that follows ends with [TypeError] and returns
    no list, so the list written is not read back. *)
Theorem cached_devices_raises_after_cache_devices env (live : list DeviceInfo)
    (self : Descriptor) :
  _cache_devices env live self = (Ok tt, cached env live self) /\
  _filecache (cached env live self) !! cache_key =
    Some (json_dumps env (JList (map device_to_json live))) /\
  _cached_devices (cached env live self) =
    (Raise function_not_subscriptable, cached env live self).
Proof.
  assert (H : _filecache (cached env live self) !! cache_key =
              Some (json_dumps env (JList (map device_to_json live))))
    by apply lookup_insert_eq.
  repeat split; [exact H|]. rewrite cached_devices_run, H. reflexivity.
Qed.

Lemma get_device_run env i self :
  get_device env i self =
    match get_devices env self with
    | (Ok listed, self') =>
        match filter (fun d => device_id d = i) listed with
        | [] => (Raise (DeviceNotFoundException i), self')
        | d :: _ => (Ok d, self')
        end
    | (Raise e, self') => (Raise e, self')
    end.
Proof.
  unfold get_device, bind. destruct (get_devices env self) as [[listed|e] self'];
    [|reflexivity].
  destruct (filter _ listed); reflexivity.
Qed.

Lemma get_device_state env i self : snd (get_device env i self) = snd (get_devices env self).
Proof.
  rewrite get_device_run. destruct (get_devices env self) as [[listed|e] self'];
    [|reflexivity].
  destruct (filter _ listed); reflexivity.
Qed.

Lemma create_device_instance_state env i self :
  snd (create_device_instance env i self) = snd (get_devices env self).
Proof.
  rewrite <- (get_device_state env i). unfold create_device_instance, bind, lift.
  destruct (get_device env i self) as [[info|e] self']; reflexivity.
Qed.

Lemma get_devices_state env self :
  snd (get_devices env self) =
    match devices (_zeroconf_browser self) with
    | [] => self
    | live => cached env live self
    end.
Proof.
  rewrite get_devices_run, cached_devices_run.
  destruct (devices (_zeroconf_browser self)); [|reflexivity].
  destruct (_filecache self !! cache_key); reflexivity.
Qed.

(** C3. Every operation of the registry leaves the cache either as it
    was, or with the entry [cached_devices] set to the encoding of the
    discovered list, and the latter only when that list is not empty: no
    operation writes the entry from an empty list.  The browser is never
    changed by the registry. *)
Theorem cache_written_only_from_live_list env (op : registry_op) (self : Descriptor) :
  _zeroconf_browser (run_op env op self) = _zeroconf_browser self /\
  (_filecache (run_op env op self) = _filecache self \/
   (devices (_zeroconf_browser self) <> [] /\
    _filecache (run_op env op self) =
      <[cache_key := json_dumps env (JList (map device_to_json (devices (_zeroconf_browser self))))]>
        (_filecache self))).
Proof.
  assert (Hstate : run_op env op self = snd (get_devices env self) \/
                   run_op env op self = self).
  { destruct op; simpl;
      [left; reflexivity
      |left; apply get_device_state
      |left; apply create_device_instance_state
      |right; reflexivity
      |right; reflexivity]. }
  destruct Hstate as [-> | ->]; [|split; [reflexivity|left; reflexivity]].
  rewrite get_devices_state.
  destruct (devices (_zeroconf_browser self)) as [|d live] eqn:E.
  - split; [reflexivity|left; reflexivity].
  - split; [reflexivity|]. right. split; [discriminate|reflexivity].
Qed.

(** When the listing raises, [get_device] raises the same exception. *)
Lemma get_device_listing_raises env i self self' e :
  get_devices env self = (Raise e, self') -> get_device env i self = (Raise e, self').
Proof. intros H. rewrite get_device_run, H. reflexivity. Qed.

(** Where the listing returns a sequence, [get_device] raises
    [DeviceNotFoundException] exactly when no descriptor of the sequence
    has the given ID, and otherwise returns a descriptor of the sequence
    with that ID, the first one. *)
Theorem get_device_found_or_not_found env (i : string) (self self' : Descriptor)
    (listed : list DeviceInfo) :
  get_devices env self = (Ok listed, self') ->
  (get_device env i self = (Raise (DeviceNotFoundException i), self') <->
   forall d, d ∈ listed -> device_id d <> i) /\
  ((exists d, d ∈ listed /\ device_id d = i) ->
   exists d, get_device env i self = (Ok d, self') /\ d ∈ listed /\ device_id d = i /\
             head (filter (fun d => device_id d = i) listed) = Some d).
Proof.
  intros Hlist. rewrite get_device_run, Hlist.
  destruct (filter_first (fun d => device_id d = i) listed) as [Hsome Hnone].
  split; [split|].
  - intros Hraise d Hin Hid.
    destruct (Hsome (ex_intro _ d (conj Hin Hid))) as (d' & rest & E & _).
    rewrite E in Hraise. discriminate Hraise.
  - intros Hno. rewrite (Hnone Hno). reflexivity.
  - intros Hex. destruct (Hsome Hex) as (d & rest & -> & Hid & Hin).
    exists d. repeat split; assumption.
Qed.

Lemma get_device_found_or_not_found_witness :
  get_device env_no_lirc "10.0.0.9" discovered =
    (Raise (DeviceNotFoundException "10.0.0.9"), cached env_no_lirc [dmp] discovered) /\
  exists d, get_device env_no_lirc dmp_address discovered =
              (Ok d, cached env_no_lirc [dmp] discovered) /\
            d ∈ [dmp] /\ device_id d = dmp_address /\
            head (filter (fun d => device_id d = dmp_address) [dmp]) = Some d.
Proof.
  split.
  - apply (proj1 (get_device_found_or_not_found env_no_lirc "10.0.0.9" discovered
                    (cached env_no_lirc [dmp] discovered) [dmp] eq_refl)).
    intros d Hd. apply list_elem_of_singleton in Hd as ->. discriminate.
  - apply (proj2 (get_device_found_or_not_found env_no_lirc dmp_address discovered
                    (cached env_no_lirc [dmp] discovered) [dmp] eq_refl)).
    exists dmp. split; [apply list_elem_of_here|reflexivity].
Defined.

(** C6, where the code departs from it.  With nothing discovered and an
    entry in the cache, the listing that [get_device] starts with returns
    no sequence: it ends with the [TypeError] of [json.loads[jsn]], and so
    does [get_device], for every ID, also for the ID of a device that the
    cached entry holds.  [get_device] then neither raises
    [DeviceNotFoundException] nor returns a descriptor. *)
Theorem get_device_raises_on_cached_entry env (i : string) (self : Descriptor)
    (jsn : string) :
  devices (_zeroconf_browser self) = [] ->
  _filecache self !! cache_key = Some jsn ->
  get_device env i self = (Raise function_not_subscriptable, self) /\
  get_device env i self <> (Raise (DeviceNotFoundException i), self) /\
  forall d self', get_device env i self <> (Ok d, self').
Proof.
  intros Hlive Hcache.
  assert (H : get_device env i self = (Raise function_not_subscriptable, self)).
  { rewrite get_device_run, get_devices_run, Hlive, cached_devices_run, Hcache.
    reflexivity. }
  rewrite H. split; [reflexivity|]. split; [discriminate|]. intros d self'. discriminate.
Qed.

Lemma get_device_raises_on_cached_entry_witness :
  _filecache restarted !! cache_key = Some (dumps (JList [device_to_json dmp])) /\
  get_device env_no_lirc dmp_address restarted =
    (Raise function_not_subscriptable, restarted) /\
  get_device env_no_lirc dmp_address restarted <>
    (Raise (DeviceNotFoundException dmp_address), restarted) /\
  forall d self', get_device env_no_lirc dmp_address restarted <> (Ok d, self').
Proof.
  assert (Hcache : _filecache restarted !! cache_key =
                     Some (dumps (JList [device_to_json dmp])))
    by apply lookup_singleton_eq.
  split; [exact Hcache|].
  apply (get_device_raises_on_cached_entry env_no_lirc dmp_address restarted
           (dumps (JList [device_to_json dmp])) eq_refl Hcache).
Defined.

(** ** The discovery listener *)

Lemma add_service_run env type_ name (self : ZeroconfBrowser) :
  add_service env type_ name self =
    match get_service_info env type_ name with
    | Some addresses =>
        match confirm_device env addresses with
        | Ok device_info => (Ok tt, {| _devices := _devices self ++ [device_info] |})
        | Raise _ => (Ok tt, self)
        end
    | None => (Ok tt, self)
    end.
Proof.
  unfold add_service. destruct (get_service_info env type_ name) as [addresses|];
    [|reflexivity].
  destruct (confirm_device env addresses); reflexivity.
Qed.

(** A handshake that succeeds gives the descriptor of the device. *)
Lemma confirm_device_Ok env address rest raw device n h :
  eversolo.connect_device env address eversolo.default_port
    (Some client_name) (Some client_uuid) = Ok raw ->
  getitem raw "device" = Ok device ->
  getitem device "name" = Ok (JStr n) ->
  getitem device "host" = Ok (JStr h) ->
  confirm_device env (address :: rest) = Ok {| name := n; device_id := h |}.
Proof.
  intros Hconnect Hdevice Hname Hhost. unfold confirm_device. simpl.
  rewrite Hconnect. simpl. rewrite Hdevice. simpl. rewrite Hname, Hhost. reflexivity.
Qed.

(** An announcement that does not resolve, or whose handshake fails,
    leaves the list as it was and raises nothing. *)
Lemma add_service_rejected env type_ name self :
  (get_service_info env type_ name = None \/
   exists addresses e, get_service_info env type_ name = Some addresses /\
                       confirm_device env addresses = Raise e) ->
  add_service env type_ name self = (Ok tt, self).
Proof.
  rewrite add_service_run. intros [-> | (addresses & e & -> & ->)]; reflexivity.
Qed.

(** C4, as the code has it.  [add_service] does not look at the service
    names or addresses it has seen: every announcement that resolves and
    whose handshake succeeds appends one descriptor to the list, so the
    same service name processed twice, with the same address and a
    successful handshake both times, leaves two equal descriptors at the
    end of the list. *)
Theorem add_service_appends_on_every_confirmation env type_ name address rest raw device
    n h (self : ZeroconfBrowser) :
  get_service_info env type_ name = Some (address :: rest) ->
  eversolo.connect_device env address eversolo.default_port
    (Some client_name) (Some client_uuid) = Ok raw ->
  getitem raw "device" = Ok device ->
  getitem device "name" = Ok (JStr n) ->
  getitem device "host" = Ok (JStr h) ->
  add_service env type_ name self =
    (Ok tt, {| _devices := _devices self ++ [{| name := n; device_id := h |}] |}) /\
  snd (add_service env type_ name (snd (add_service env type_ name self))) =
    {| _devices := _devices self ++ [{| name := n; device_id := h |};
                                     {| name := n; device_id := h |}] |}.
Proof.
  intros Hinfo Hconnect Hdevice Hname Hhost.
  pose proof (confirm_device_Ok env address rest raw device n h
                Hconnect Hdevice Hname Hhost) as Hconfirm.
  rewrite !add_service_run, Hinfo, Hconfirm. simpl.
  split; [reflexivity|]. rewrite <- app_assoc. reflexivity.
Qed.

Lemma add_service_appends_on_every_confirmation_witness :
  add_service env_no_lirc adb_type dmp_service {| _devices := [dmp] |} =
    (Ok tt, {| _devices := [dmp; dmp] |}) /\
  snd (add_service env_no_lirc adb_type dmp_service
         (snd (add_service env_no_lirc adb_type dmp_service {| _devices := [dmp] |}))) =
    {| _devices := [dmp; dmp; dmp] |}.
Proof.
  apply (add_service_appends_on_every_confirmation env_no_lirc adb_type dmp_service
           dmp_address [] handshake_reply
           (JDict [("name", JStr "DMP-A6"); ("host", JStr dmp_address)])
           "DMP-A6" dmp_address {| _devices := [dmp] |}); reflexivity.
Defined.

(** C4 as the specification has it fails: the service of the device is announced
    twice, resolves to the same address and passes the handshake both
    times, and the list ends with two entries for that address. *)
Lemma add_service_same_name_twice_adds_two_entries :
  get_service_info env_no_lirc adb_type dmp_service = Some [dmp_address] /\
  confirm_device env_no_lirc [dmp_address] = Ok dmp /\
  _devices (snd (add_service env_no_lirc adb_type dmp_service idle_browser)) = [dmp] /\
  _devices (snd (add_service env_no_lirc adb_type dmp_service
                   (snd (add_service env_no_lirc adb_type dmp_service idle_browser)))) =
    [dmp; dmp] /\
  length (filter (fun d => device_id d = dmp_address)
            (_devices (snd (add_service env_no_lirc adb_type dmp_service
                              (snd (add_service env_no_lirc adb_type dmp_service
                                      idle_browser)))))) = 2%nat.
Proof.
  repeat split.
Qed.

(** ** The scenarios of the registry, run *)

(** Nothing cached and nothing discovered: the empty list, and the cache
    stays empty. *)
Example get_devices_fresh : get_devices env_no_lirc fresh = (Ok [], fresh).
Proof. apply get_devices_nothing_cached; reflexivity. Qed.

(** One device discovered: it is returned and written to the cache. *)
Example get_devices_discovered :
  get_devices env_no_lirc discovered = (Ok [dmp], cached env_no_lirc [dmp] discovered) /\
  _filecache (cached env_no_lirc [dmp] discovered) !! cache_key =
    Some (dumps (JList [device_to_json dmp])).
Proof. split; [reflexivity|apply lookup_insert_eq]. Qed.

(** The same device announced once: the browser holds it once. *)
Example add_service_once :
  add_service env_no_lirc adb_type dmp_service idle_browser =
    (Ok tt, {| _devices := [dmp] |}).
Proof. reflexivity. Qed.

(** An announcement of another service does not resolve here and is
    dropped. *)
Example add_service_unresolved :
  add_service env_no_lirc adb_type "printer._adb._tcp.local." idle_browser =
    (Ok tt, idle_browser).
Proof. apply add_service_rejected. left. reflexivity. Qed.


(** * Further properties of the code *)

(** ** The control calls *)

Lemma execute_command_run env ip port uri t :
  eversolo._execute_command env ip port uri t =
    (match session_get env (eversolo.url_of ip port uri) with
     | Ok body => loads env body
     | Raise e => Raise e
     end, (t ++ [HttpGet (eversolo.url_of ip port uri)])%list).
Proof.
  unfold eversolo._execute_command, bind. rewrite http_get_run.
  destruct (session_get env _) as [body|e]; [|reflexivity].
  unfold lift, ret. destruct (loads env body); reflexivity.
Qed.

(** Each control call is [_execute_command] on its path, followed by the
    read of [response["status"]]. *)
Lemma control_call_run env ip port uri f t :
  (uri, f) ∈ eversolo.control_calls env ->
  f ip port t =
    match eversolo._execute_command env ip port uri t with
    | (Ok response, t') =>
        match getitem response "status" with
        | Ok _ => (Ok tt, t')
        | Raise e => (Raise e, t')
        end
    | (Raise e, t') => (Raise e, t')
    end.
Proof.
  intros Hf. unfold eversolo.control_calls in Hf.
  repeat (apply elem_of_cons in Hf as [Hf|Hf];
          [injection Hf as -> ->;
           match goal with
           | |- ?g env _ _ _ = _ => unfold g, bind, lift, ret
           end;
           destruct (eversolo._execute_command env ip port _ t) as [[response|e] t'];
           [destruct (getitem response "status")|]; reflexivity|]).
  apply elem_of_nil in Hf. destruct Hf.
Qed.

(** X1. A control call sends exactly one request, the GET of its path on
    the address and port given, whether the call then returns or raises. *)
Theorem control_call_sends_one_request env ip port uri f t :
  (uri, f) ∈ eversolo.control_calls env ->
  snd (f ip port t) = (t ++ [HttpGet (eversolo.url_of ip port uri)])%list.
Proof.
  intros Hf. rewrite (control_call_run env ip port uri f t Hf), execute_command_run.
  destruct (session_get env _) as [body|e]; [|reflexivity].
  destruct (loads env body) as [response|e]; [|reflexivity].
  destruct (getitem response "status"); reflexivity.
Qed.

Lemma control_call_sends_one_request_witness :
  snd (eversolo.play_or_pause env_status_500 dmp_address 9529 []) =
    [HttpGet "http://192.168.1.50:9529/ZidooMusicControl/v2/playOrPause"].
Proof.
  apply (control_call_sends_one_request env_status_500 dmp_address 9529
           "/ZidooMusicControl/v2/playOrPause" (eversolo.play_or_pause env_status_500) []).
  apply list_elem_of_here.
Defined.

(** X2. A control call does not look at the status the device reports:
    when the body decodes to an object with a [status] field, the call
    returns normally, whatever the value of the field. *)
Theorem control_call_ignores_status env ip port uri f t body fields status :
  (uri, f) ∈ eversolo.control_calls env ->
  session_get env (eversolo.url_of ip port uri) = Ok body ->
  json_loads env body = Some (JDict fields) ->
  assoc "status" fields = Some status ->
  f ip port t = (Ok tt, (t ++ [HttpGet (eversolo.url_of ip port uri)])%list).
Proof.
  intros Hf Hget Hloads Hstatus.
  rewrite (control_call_run env ip port uri f t Hf), execute_command_run, Hget.
  unfold loads. rewrite Hloads. simpl. rewrite Hstatus. reflexivity.
Qed.

Lemma control_call_ignores_status_witness :
  eversolo.play_or_pause env_status_500 dmp_address 9529 [] =
    (Ok tt, [HttpGet "http://192.168.1.50:9529/ZidooMusicControl/v2/playOrPause"]).
Proof.
  apply (control_call_ignores_status env_status_500 dmp_address 9529
           "/ZidooMusicControl/v2/playOrPause" (eversolo.play_or_pause env_status_500) []
           (dumps (status_reply 500)) [("status", JInt 500)] (JInt 500));
    [apply list_elem_of_here|reflexivity..].
Defined.

(** X3. When the body decodes to an object without a [status] field, the
    control call raises [KeyError] for that key, after the request. *)
Theorem control_call_without_status_raises env ip port uri f t body fields :
  (uri, f) ∈ eversolo.control_calls env ->
  session_get env (eversolo.url_of ip port uri) = Ok body ->
  json_loads env body = Some (JDict fields) ->
  assoc "status" fields = None ->
  f ip port t =
    (Raise (KeyError "status"), (t ++ [HttpGet (eversolo.url_of ip port uri)])%list).
Proof.
  intros Hf Hget Hloads Hstatus.
  rewrite (control_call_run env ip port uri f t Hf), execute_command_run, Hget.
  unfold loads. rewrite Hloads. simpl. rewrite Hstatus. reflexivity.
Qed.

Lemma control_call_without_status_raises_witness :
  eversolo.play_or_pause env_empty_object dmp_address 9529 [] =
    (Raise (KeyError "status"),
     [HttpGet "http://192.168.1.50:9529/ZidooMusicControl/v2/playOrPause"]).
Proof.
  apply (control_call_without_status_raises env_empty_object dmp_address 9529
           "/ZidooMusicControl/v2/playOrPause" (eversolo.play_or_pause env_empty_object) []
           (dumps (JDict [])) []);
    [apply list_elem_of_here|reflexivity..].
Defined.

(** X4. An error of the request itself is not caught: [_execute_command]
    and every control call raise the exception the GET raised. *)
Theorem request_error_is_raised env ip port uri t e :
  session_get env (eversolo.url_of ip port uri) = Raise e ->
  eversolo._execute_command env ip port uri t =
    (Raise e, (t ++ [HttpGet (eversolo.url_of ip port uri)])%list) /\
  forall f, (uri, f) ∈ eversolo.control_calls env ->
    f ip port t = (Raise e, (t ++ [HttpGet (eversolo.url_of ip port uri)])%list).
Proof.
  intros Hget.
  assert (H : eversolo._execute_command env ip port uri t =
              (Raise e, (t ++ [HttpGet (eversolo.url_of ip port uri)])%list))
    by (rewrite execute_command_run, Hget; reflexivity).
  split; [exact H|].
  intros f Hf. rewrite (control_call_run env ip port uri f t Hf), H. reflexivity.
Qed.

Lemma request_error_is_raised_witness :
  eversolo._execute_command env_first_address_down dmp_address 9529
      "/ZidooMusicControl/v2/playNext" [] =
    (Raise (OSError "Connection refused"),
     [HttpGet "http://192.168.1.50:9529/ZidooMusicControl/v2/playNext"]) /\
  forall f, ("/ZidooMusicControl/v2/playNext", f)
              ∈ eversolo.control_calls env_first_address_down ->
    f dmp_address 9529 [] =
      (Raise (OSError "Connection refused"),
       [HttpGet "http://192.168.1.50:9529/ZidooMusicControl/v2/playNext"]).
Proof.
  apply (request_error_is_raised env_first_address_down dmp_address 9529
           "/ZidooMusicControl/v2/playNext" [] (OSError "Connection refused")).
  reflexivity.
Defined.

(** ** The readiness probe *)

(** X5. [is_device_ready] issues one request, the handshake on the
    address of the device at port 9529.  It answers [True] when the
    request and [response.json()] return, whatever the reply holds, and
    [False] when they raise an [Exception] of any kind; an exception that
    is not an [Exception], such as the cancellation of the task, is not
    caught and leaves [is_device_ready]. *)
Theorem is_device_ready_answers session_get_json (self : DmpA6DeviceDriver) t :
  is_device_ready session_get_json self t =
    (match session_get_json (handshake_url (device_id (device_info self))) with
     | Returns _ => Returns true
     | Raises _ => Returns false
     | RaisesBase name => RaisesBase name
     end,
     (t ++ [HttpGet (handshake_url (device_id (device_info self)))])%list) /\
  ((exists reply,
      session_get_json (handshake_url (device_id (device_info self))) = Returns reply) <->
   is_device_ready session_get_json self t =
     (Returns true, (t ++ [HttpGet (handshake_url (device_id (device_info self)))])%list)) /\
  ((exists e,
      session_get_json (handshake_url (device_id (device_info self))) = Raises e) <->
   is_device_ready session_get_json self t =
     (Returns false, (t ++ [HttpGet (handshake_url (device_id (device_info self)))])%list)) /\
  (forall e t', is_device_ready session_get_json self t <> (Raises e, t')).
Proof.
  unfold is_device_ready, eversolo.connect_device_async, handshake_url. simpl.
  destruct (session_get_json _) as [reply|e|name] eqn:Hreply;
    (split; [reflexivity|]); (split; [|split; [|discriminate]]); split;
    try (intros [? H]; discriminate H); try discriminate; try reflexivity;
    intros _; eexists; reflexivity.
Qed.

(** A task cancelled during the handshake: the cancellation leaves the
    probe; a reply with the wrong Content-Type: the probe answers
    [False]. *)
Example is_device_ready_cancelled :
  is_device_ready (fun url => RaisesBase "CancelledError") dmp_driver [] =
    (RaisesBase "CancelledError", [HttpGet (handshake_url dmp_address)]) /\
  is_device_ready (fun url => Raises (OSError "ContentTypeError")) dmp_driver [] =
    (Returns false, [HttpGet (handshake_url dmp_address)]) /\
  is_device_ready (fun url => Returns handshake_reply) dmp_driver [] =
    (Returns true, [HttpGet (handshake_url dmp_address)]).
Proof. repeat split. Qed.

(** ** The listener over a run of announcements *)

Lemma handle_run env ev (self : ZeroconfBrowser) :
  fst (handle env ev self) = Ok tt /\
  exists added, _devices (snd (handle env ev self)) = (_devices self ++ added)%list /\
                (length added <= if is_added ev then 1 else 0)%nat.
Proof.
  destruct ev as [type_ name|type_ name|type_ name]; simpl;
    [|split; [reflexivity|exists []; rewrite app_nil_r; split; [reflexivity|simpl; lia]]..].
  rewrite add_service_run.
  destruct (get_service_info env type_ name) as [addresses|];
    [destruct (confirm_device env addresses) as [d|e]|]; simpl;
    (split; [reflexivity|]);
    [exists [d]; split; [reflexivity|simpl; lia]
    |exists []; rewrite app_nil_r; split; [reflexivity|simpl; lia]..].
Qed.

(** X6. No event of the listener raises, and over any run of events the
    list of discovered devices only grows at its end: the devices it held
    stay where they are, also after [remove_service], and at most one
    device is appended per [add_service]. *)
Theorem discovered_list_only_grows env (events : list listener_event)
    (self : ZeroconfBrowser) :
  (forall ev s, fst (handle env ev s) = Ok tt) /\
  exists added,
    _devices (run_events env events self) = (_devices self ++ added)%list /\
    (length added <= length (filter (fun ev => is_added ev = true) events))%nat.
Proof.
  split; [intros ev s; apply handle_run|].
  revert self. induction events as [|ev rest IH]; intros self; simpl.
  - exists []. rewrite app_nil_r. split; [reflexivity|simpl; lia].
  - destruct (handle_run env ev self) as (_ & added1 & H1 & Hlen1).
    destruct (IH (snd (handle env ev self))) as (added2 & H2 & Hlen2).
    exists (added1 ++ added2)%list. split.
    + rewrite H2, H1, app_assoc. reflexivity.
    + rewrite length_app, filter_cons.
      destruct (is_added ev); simpl in *; try case_decide; simpl; try lia; congruence.
Qed.

(** X7. Only the first address of a service is tried: when the handshake
    with it raises, the announcement is dropped without an exception, also
    when the service has other addresses. *)
Theorem add_service_tries_first_address_only env type_ name address rest e
    (self : ZeroconfBrowser) :
  get_service_info env type_ name = Some (address :: rest) ->
  eversolo.connect_device env address eversolo.default_port
    (Some client_name) (Some client_uuid) = Raise e ->
  add_service env type_ name self = (Ok tt, self).
Proof.
  intros Hinfo Hconnect. apply add_service_rejected. right.
  exists (address :: rest), e. split; [exact Hinfo|].
  unfold confirm_device. simpl. rewrite Hconnect. reflexivity.
Qed.

Lemma add_service_tries_first_address_only_witness :
  add_service env_first_address_down adb_type dmp_service idle_browser =
    (Ok tt, idle_browser).
Proof.
  apply (add_service_tries_first_address_only env_first_address_down adb_type dmp_service
           "10.0.0.7" [dmp_address] (OSError "Connection refused") idle_browser);
    reflexivity.
Defined.

(** X8. A service that resolves to no address is dropped: the list is
    unchanged and the [IndexError] of [addresses[0]] does not leave
    [add_service]. *)
Theorem add_service_without_address env type_ name (self : ZeroconfBrowser) :
  get_service_info env type_ name = Some [] ->
  confirm_device env [] = Raise (IndexError "list index out of range") /\
  add_service env type_ name self = (Ok tt, self).
Proof.
  intros Hinfo. split; [reflexivity|].
  rewrite add_service_run, Hinfo. reflexivity.
Qed.

Lemma add_service_without_address_witness :
  confirm_device env_no_address [] = Raise (IndexError "list index out of range") /\
  add_service env_no_address adb_type dmp_service {| _devices := [dmp] |} =
    (Ok tt, {| _devices := [dmp] |}).
Proof.
  apply (add_service_without_address env_no_address adb_type dmp_service
           {| _devices := [dmp] |}).
  reflexivity.
Defined.

(** X9. A handshake reply is taken only when it has [device.name] and
    [device.host]: when one of the three keys is missing, nothing is added
    and no exception leaves [add_service]. *)
Theorem add_service_needs_name_and_host env type_ name address rest raw
    (self : ZeroconfBrowser) :
  get_service_info env type_ name = Some (address :: rest) ->
  eversolo.connect_device env address eversolo.default_port
    (Some client_name) (Some client_uuid) = Ok raw ->
  (forall device n h,
     getitem raw "device" = Ok device -> getitem device "name" = Ok n ->
     getitem device "host" = Ok h -> False) ->
  add_service env type_ name self = (Ok tt, self).
Proof.
  intros Hinfo Hconnect Hmissing.
  rewrite add_service_run, Hinfo. unfold confirm_device. simpl. rewrite Hconnect. simpl.
  destruct (getitem raw "device") as [device|e1] eqn:Hdevice; simpl; [|reflexivity].
  destruct (getitem device "name") as [n|e2] eqn:Hname; simpl; [|reflexivity].
  destruct (getitem device "host") as [h|e3] eqn:Hhost; simpl; [|reflexivity].
  destruct (Hmissing device n h eq_refl Hname Hhost).
Qed.

Lemma add_service_needs_name_and_host_witness :
  add_service env_empty_object adb_type dmp_service idle_browser = (Ok tt, idle_browser).
Proof.
  apply (add_service_needs_name_and_host env_empty_object adb_type dmp_service
           dmp_address [] (JDict []) idle_browser); try reflexivity.
  intros device n h Hdevice. discriminate Hdevice.
Defined.

(** X10. A device that the listener has just confirmed can be looked up:
    after the announcement, [get_device] with the host the device reported
    returns a descriptor of the list with that ID, and the list is
    written to the cache. *)
Theorem discovered_device_is_found env type_ name addresses d (self : Descriptor) :
  get_service_info env type_ name = Some addresses ->
  confirm_device env addresses = Ok d ->
  exists d',
    get_device env (device_id d) (after_events env [ServiceAdded type_ name] self) =
      (Ok d', cached env (_devices (_zeroconf_browser self) ++ [d])
                (after_events env [ServiceAdded type_ name] self)) /\
    device_id d' = device_id d /\
    d' ∈ (_devices (_zeroconf_browser self) ++ [d])%list.
Proof.
  intros Hinfo Hconfirm.
  assert (Hlive : devices (_zeroconf_browser (after_events env [ServiceAdded type_ name] self))
                  = (_devices (_zeroconf_browser self) ++ [d])%list).
  { unfold after_events. simpl. rewrite add_service_run, Hinfo, Hconfirm. reflexivity. }
  rewrite get_device_run, get_devices_live; rewrite Hlive;
    [|intros Hnil; apply app_nil in Hnil as [_ Hnil]; discriminate Hnil].
  destruct (proj1 (filter_first (fun x => device_id x = device_id d)
                     (_devices (_zeroconf_browser self) ++ [d])%list))
    as (d' & others & -> & Hid & Hin).
  - exists d. split; [|reflexivity]. apply elem_of_app. right. apply list_elem_of_here.
  - exists d'. repeat split; assumption.
Qed.

Lemma discovered_device_is_found_witness :
  exists d',
    get_device env_no_lirc dmp_address (after_events env_no_lirc
                                          [ServiceAdded adb_type dmp_service] fresh) =
      (Ok d', cached env_no_lirc [dmp]
                (after_events env_no_lirc [ServiceAdded adb_type dmp_service] fresh)) /\
    device_id d' = dmp_address /\ d' ∈ [dmp].
Proof.
  apply (discovered_device_is_found env_no_lirc adb_type dmp_service [dmp_address] dmp fresh);
    reflexivity.
Defined.

(** ** The registry, further *)

Lemma cached_twice env live self : cached env live (cached env live self) = cached env live self.
Proof. unfold cached. simpl. rewrite insert_insert_eq. reflexivity. Qed.

(** X11. Listing twice is listing once: a second [get_devices], run in
    the state the first one leaves, gives the same outcome and leaves that
    state as it is. *)
Theorem get_devices_twice env (self : Descriptor) :
  get_devices env (snd (get_devices env self)) = get_devices env self.
Proof.
  rewrite (get_devices_run env self).
  destruct (devices (_zeroconf_browser self)) as [|d live] eqn:Hlive.
  - rewrite cached_devices_run.
    destruct (_filecache self !! cache_key) eqn:Hcache; simpl;
      rewrite get_devices_run, Hlive, cached_devices_run, Hcache, ?Hlive; reflexivity.
  - simpl. rewrite get_devices_run. simpl. rewrite Hlive, cached_twice. reflexivity.
Qed.

(** X12. [create_device_instance] on a listing that returns: an ID that
    no listed device has raises [DeviceNotFoundException] (no [None] is
    returned); otherwise the driver is built for the first listed device
    with that ID and holds the catalog for that ID, and an exception of
    [create_commands] is raised as it is.  The state is the one the
    listing leaves. *)
Theorem create_device_instance_builds_driver env (i : string) (self self' : Descriptor)
    (listed : list DeviceInfo) :
  get_devices env self = (Ok listed, self') ->
  ((forall d, d ∈ listed -> device_id d <> i) ->
   create_device_instance env i self = (Raise (DeviceNotFoundException i), self')) /\
  (forall d others, filter (fun d => device_id d = i) listed = d :: others ->
   create_device_instance env i self =
     (match create_commands env i with
      | Ok cmds => Ok {| device_info := d; _commands := cmds |}
      | Raise e => Raise e
      end, self')).
Proof.
  intros Hlist. unfold create_device_instance, bind. rewrite get_device_run, Hlist.
  split.
  - intros Hnone.
    rewrite (proj2 (filter_first (fun d => device_id d = i) listed) Hnone). reflexivity.
  - intros d others Hfilter. rewrite Hfilter.
    assert (Hd : d ∈ filter (fun d => device_id d = i) listed)
      by (rewrite Hfilter; apply list_elem_of_here).
    apply list_elem_of_filter in Hd as [Hid _].
    unfold lift, DmpA6DeviceDriver__init__. rewrite Hid.
    destruct (create_commands env i); reflexivity.
Qed.

Lemma create_device_instance_builds_driver_witness :
  create_device_instance env_no_lirc "10.0.0.9" discovered =
    (Raise (DeviceNotFoundException "10.0.0.9"), cached env_no_lirc [dmp] discovered) /\
  create_device_instance env_no_lirc dmp_address discovered =
    (Ok dmp_driver, cached env_no_lirc [dmp] discovered).
Proof.
  split.
  - apply (proj1 (create_device_instance_builds_driver env_no_lirc "10.0.0.9" discovered
                    (cached env_no_lirc [dmp] discovered) [dmp] eq_refl)).
    intros d Hd. apply list_elem_of_singleton in Hd as ->. discriminate.
  - apply (proj2 (create_device_instance_builds_driver env_no_lirc dmp_address discovered
                    (cached env_no_lirc [dmp] discovered) [dmp] eq_refl) dmp []).
    reflexivity.
Defined.

Lemma device_from_to_json d : device_from_json (device_to_json d) = Ok d.
Proof. destruct d as [n i]. reflexivity. Qed.

Lemma mapM_device_from_to_json (listed : list DeviceInfo) :
  mapM device_from_json (map device_to_json listed) = Ok listed.
Proof.
  induction listed as [|d rest IH]; [reflexivity|].
  cbn [map mapM]. rewrite device_from_to_json. cbn [result_bind].
  rewrite IH. reflexivity.
Qed.

(** X13. The dictionaries that [_cache_devices] builds from a list of
    devices are turned back into that list by the decoding step of
    [_cached_devices]: every [{name, device_id}] gives its [DeviceInfo]
    back, in the same order. *)
Theorem device_dicts_round_trip (listed : list DeviceInfo) :
  (items <~ py_iter (JList (map device_to_json listed)) ;; mapM device_from_json items)
    = Ok listed.
Proof.
  cbn [py_iter result_bind]. apply mapM_device_from_to_json.
Qed.

(** ** The catalog, further *)

(** From [create_commands env d = Ok cmds] to the nineteen commands
    written out, with what each icon function returned. *)
Ltac invert_catalog H :=
  apply sequence_Ok in H;
  repeat match goal with
  | H : Forall2 _ (_ :: _) _ |- _ => apply Forall2_cons_inv_l in H as (? & ? & ? & ? & ->)
  | H : Forall2 _ [] _ |- _ => apply Forall2_nil_inv_l in H as ->
  end;
  repeat match goal with
  | H : result_bind ?r _ = Ok _ |- _ =>
      let E := fresh "Hicon" in destruct r eqn:E; simpl in H; [|discriminate]
  | H : Ok _ = Ok _ |- _ => injection H as <-
  end.

Lemma power_toggle_init_inv env i t ic d c :
  DmpA6PowerToggleCommand__init__ env i t ic d = Ok c ->
  exists client, c = DmpA6PowerToggleCommand i t ic d client /\
    (client = None <-> lirc_connect env = Raise LircdConnectionError) /\
    (forall e, lirc_connect env = Raise e -> e = LircdConnectionError).
Proof.
  unfold DmpA6PowerToggleCommand__init__.
  destruct (lirc_connect env) as [cl|[]] eqn:E; intros H; try discriminate;
    injection H as <-; eexists; (split; [reflexivity|]); split;
    try (split; [discriminate|discriminate]);
    try (split; reflexivity);
    intros e He; try discriminate He; injection He as <-; reflexivity.
Qed.

(** With every icon taken from its file, [create_commands] returns a
    catalog exactly when each of the nineteen icon files can be read and
    [lirc.Client()] returns or raises [LircdConnectionError]. *)
Theorem create_commands_returns_iff env (device_id : string) :
  (exists cmds, create_commands env device_id = Ok cmds) <->
  (forall f, f ∈ icons.icon_files -> exists bytes, read_icon_file env f = Ok bytes) /\
  (forall e, lirc_connect env = Raise e -> e = LircdConnectionError).
Proof.
  split; [|intros [Hicons Hlirc]; apply create_commands_returns; assumption].
  intros [cmds H]. unfold create_commands in H. invert_catalog H.
  match goal with
  | H : DmpA6PowerToggleCommand__init__ _ _ _ _ _ = Ok _ |- _ =>
      apply power_toggle_init_inv in H as (client & _ & _ & Hlirc)
  end.
  split; [|exact Hlirc].
  intros f Hf. unfold icons.icon_files in Hf.
  repeat (apply elem_of_cons in Hf as [->|Hf]; [eexists; eassumption|]).
  apply elem_of_nil in Hf. destruct Hf.
Qed.

(** X15. The shape of a catalog that [create_commands] returns: nineteen
    commands, each bound to the address given; the first is the power
    toggle, which has an infrared client unless [lirc.Client()] raised
    [LircdConnectionError]; the eighteen others are HTTP commands. *)
Theorem catalog_shape env (device_id : string) (cmds : list DeviceCommand) :
  create_commands env device_id = Ok cmds ->
  length cmds = 19%nat /\
  Forall (fun c => commands._ip_address c = device_id) cmds /\
  exists icon client others,
    cmds = DmpA6PowerToggleCommand TOGGLE_POWER "On/Off" icon device_id client :: others /\
    (client = None <-> lirc_connect env = Raise LircdConnectionError) /\
    Forall (fun c => exists i t ic callback,
                       c = DmpA6HttpDeviceCommand i t ic device_id callback) others.
Proof.
  intros H. pose proof (create_commands_ids env device_id cmds H) as [_ Hbound].
  split; [|split; [exact Hbound|]].
  - destruct (create_commands_ids env device_id cmds H) as [Hmap _].
    rewrite <- (length_map cmd_id), Hmap. reflexivity.
  - unfold create_commands in H. invert_catalog H.
    match goal with
    | H : DmpA6PowerToggleCommand__init__ _ _ _ _ _ = Ok _ |- _ =>
        apply power_toggle_init_inv in H as (client & -> & Hclient & _)
    end.
    eexists _, client, _. split; [reflexivity|]. split; [exact Hclient|].
    repeat constructor; repeat eexists.
Qed.

Lemma catalog_shape_witness :
  length dmp_catalog = 19%nat /\
  Forall (fun c => commands._ip_address c = dmp_address) dmp_catalog /\
  exists icon client others,
    dmp_catalog =
      DmpA6PowerToggleCommand TOGGLE_POWER "On/Off" icon dmp_address client :: others /\
    (client = None <-> lirc_connect env_no_lirc = Raise LircdConnectionError) /\
    Forall (fun c => exists i t ic callback,
                       c = DmpA6HttpDeviceCommand i t ic dmp_address callback) others.
Proof.
  apply (catalog_shape env_no_lirc dmp_address dmp_catalog). reflexivity.
Defined.

(** One missing icon: no catalog. *)
Example create_commands_icon_missing :
  create_commands env_icon_missing dmp_address =
    Raise (OSError "No such file or directory").
Proof. reflexivity. Qed.

(** X16. Executing an HTTP command of the catalog runs the control call
    for the path of its ID, on the address the catalog was built for and
    on port 9529, and so sends one GET of that path to that address. *)
Theorem catalog_command_requests_its_path env power_off (device_id : string)
    (cmds : list DeviceCommand) (c : DeviceCommand) (uri : string) t :
  create_commands env device_id = Ok cmds ->
  c ∈ cmds ->
  command_path (cmd_id c) command_paths = Some uri ->
  exists f, (uri, f) ∈ eversolo.control_calls env /\
    commands.execute power_off c t = f device_id 9529 t /\
    snd (commands.execute power_off c t) =
      (t ++ [HttpGet (eversolo.url_of device_id 9529 uri)])%list.
Proof.
  intros H Hc Hpath.
  assert (Htrace : forall u f, (u, f) ∈ eversolo.control_calls env ->
            snd (f device_id 9529 t) =
              (t ++ [HttpGet (eversolo.url_of device_id 9529 u)])%list).
  { intros u f Hf. rewrite (control_call_run env device_id 9529 u f t Hf), execute_command_run.
    destruct (session_get env _) as [body|e]; [|reflexivity].
    destruct (loads env body) as [response|e]; [|reflexivity].
    destruct (getitem response "status"); reflexivity. }
  unfold create_commands in H. invert_catalog H.
  match goal with
  | H : DmpA6PowerToggleCommand__init__ _ _ _ _ _ = Ok _ |- _ =>
      apply power_toggle_init_inv in H as (client & -> & _ & _)
  end.
  repeat (apply elem_of_cons in Hc as [->|Hc];
          [vm_compute in Hpath; try discriminate Hpath; injection Hpath as <-;
           match goal with
           | |- context [DmpA6HttpDeviceCommand _ _ _ _ ?callback] =>
               assert (Hf : (_, callback) ∈ eversolo.control_calls env)
                 by (unfold eversolo.control_calls;
                     repeat first [apply list_elem_of_here | apply list_elem_of_further]);
               exists callback; split; [exact Hf|]; split; [reflexivity|];
               exact (Htrace _ callback Hf)
           end|]).
  apply elem_of_nil in Hc. destruct Hc.
Qed.

Lemma catalog_command_requests_its_path_witness :
  exists f, ("/ZidooMusicControl/v2/setOutInputList?tag=HDMI&index=0", f)
              ∈ eversolo.control_calls env_status_500 /\
    commands.execute power_off_stub
        (DmpA6HttpDeviceCommand OUTPUT_HDMI "Output: HDMI" "PNG:out-hdmi.png" dmp_address
           (eversolo.set_output_hdmi env_status_500)) [] = f dmp_address 9529 [] /\
    snd (commands.execute power_off_stub
           (DmpA6HttpDeviceCommand OUTPUT_HDMI "Output: HDMI" "PNG:out-hdmi.png" dmp_address
              (eversolo.set_output_hdmi env_status_500)) []) =
      [HttpGet "http://192.168.1.50:9529/ZidooMusicControl/v2/setOutInputList?tag=HDMI&index=0"].
Proof.
  apply (catalog_command_requests_its_path env_status_500 power_off_stub dmp_address
           (match create_commands env_status_500 dmp_address with
            | Ok cmds => cmds
            | Raise _ => []
            end)
           (DmpA6HttpDeviceCommand OUTPUT_HDMI "Output: HDMI" "PNG:out-hdmi.png" dmp_address
              (eversolo.set_output_hdmi env_status_500))
           "/ZidooMusicControl/v2/setOutInputList?tag=HDMI&index=0" []).
  - reflexivity.
  - apply (list_elem_of_lookup_2 _ 16%nat). reflexivity.
  - reflexivity.
Defined.

(** X17. Every command of the catalog stands on the layout exactly once:
    no command is left off the remote and none has two buttons. *)
Theorem catalog_command_is_on_the_layout_once env (device_id : string)
    (cmds : list DeviceCommand) (c : DeviceCommand) :
  create_commands env device_id = Ok cmds ->
  c ∈ cmds ->
  layout_count (cmd_id c) = 1%nat.
Proof.
  intros H Hc. apply create_commands_ids in H as [Hids _].
  assert (Hin : cmd_id c ∈ catalog_ids)
    by (rewrite <- Hids; apply (list_elem_of_fmap_2 cmd_id); exact Hc).
  assert (Hall : Forall (fun i => layout_count i = 1%nat) catalog_ids)
    by (apply (bool_decide_unpack _); vm_compute; reflexivity).
  rewrite Forall_forall in Hall. apply Hall. exact Hin.
Qed.

Lemma catalog_command_is_on_the_layout_once_witness :
  layout_count (cmd_id (DmpA6HttpDeviceCommand PLAY_PAUSE "Play/Pause" "PNG:play-pause.png"
                          dmp_address (eversolo.play_or_pause env_no_lirc))) = 1%nat.
Proof.
  apply (catalog_command_is_on_the_layout_once env_no_lirc dmp_address dmp_catalog).
  - reflexivity.
  - apply (list_elem_of_lookup_2 _ 5%nat). reflexivity.
Defined.

(** ** The icon table and the configuration file *)

Lemma read_icon_run dir open_rb filename (st : icon_table.State) :
  icon_table.__read_icon dir open_rb filename st =
    match icon_table.__image_data st !! icon_table.os_path_join dir filename with
    | Some data => (Ok data, st)
    | None =>
        match open_rb (icon_table.os_path_join dir filename) with
        | Ok data =>
            (Ok data,
             {| icon_table.__image_data :=
                  <[icon_table.os_path_join dir filename := data]> (icon_table.__image_data st);
                icon_table.opened :=
                  (icon_table.opened st ++ [icon_table.os_path_join dir filename])%list |})
        | Raise e =>
            (Raise e,
             {| icon_table.__image_data := icon_table.__image_data st;
                icon_table.opened :=
                  (icon_table.opened st ++ [icon_table.os_path_join dir filename])%list |})
        end
    end.
Proof.
  unfold icon_table.__read_icon, icon_table.read_file. run.
  destruct (icon_table.__image_data st !! _); [reflexivity|].
  destruct (open_rb _); reflexivity.
Qed.

(** X18. The table of [__read_icon] does not change what a caller gets:
    as long as every entry of the table is what the file holds, the call
    returns, or raises, what opening and reading the file at
    [os.path.join(__directory, filename)] does, and the table stays that
    way. *)
Theorem read_icon_table_is_transparent dir open_rb filename (st : icon_table.State) :
  icon_table.table_sound open_rb st ->
  fst (icon_table.__read_icon dir open_rb filename st) =
    open_rb (icon_table.os_path_join dir filename) /\
  icon_table.table_sound open_rb (snd (icon_table.__read_icon dir open_rb filename st)).
Proof.
  intros Hsound. rewrite read_icon_run.
  destruct (icon_table.__image_data st !! _) as [data|] eqn:Hentry.
  - split; [symmetry; apply Hsound; exact Hentry|exact Hsound].
  - destruct (open_rb _) as [data|e] eqn:Hread; (split; [reflexivity|]).
    + intros p d. simpl. rewrite lookup_insert. case_decide as Hp.
      * intros Hd. injection Hd as <-. rewrite <- Hp. exact Hread.
      * apply Hsound.
    + exact Hsound.
Qed.

Lemma read_icon_table_is_transparent_witness :
  fst (icon_table.__read_icon icons_dir icon_disk "play-pause.png" no_icons_read) =
    icon_disk (icon_table.os_path_join icons_dir "play-pause.png") /\
  icon_table.table_sound icon_disk
    (snd (icon_table.__read_icon icons_dir icon_disk "play-pause.png" no_icons_read)).
Proof.
  apply (read_icon_table_is_transparent icons_dir icon_disk "play-pause.png" no_icons_read).
  intros p d H. simpl in H. rewrite lookup_empty in H. discriminate H.
Defined.

(** X19. An icon is read from its file once: after a call of
    [__read_icon] that returned, the same call returns the same bytes
    without opening a file and without changing the table; a call that
    raised has stored nothing. *)
Theorem read_icon_opens_the_file_once dir open_rb filename (st : icon_table.State) :
  (forall data st',
     icon_table.__read_icon dir open_rb filename st = (Ok data, st') ->
     icon_table.__read_icon dir open_rb filename st' = (Ok data, st')) /\
  (forall e st',
     icon_table.__read_icon dir open_rb filename st = (Raise e, st') ->
     icon_table.__image_data st' = icon_table.__image_data st).
Proof.
  split.
  - intros data st' H. rewrite read_icon_run in H.
    destruct (icon_table.__image_data st !! _) as [cached|] eqn:Hentry.
    + injection H as <- <-. rewrite read_icon_run, Hentry. reflexivity.
    + destruct (open_rb _) as [read|e]; [|discriminate H].
      injection H as <- <-. rewrite read_icon_run. simpl.
      rewrite lookup_insert_eq. reflexivity.
  - intros e st' H. rewrite read_icon_run in H.
    destruct (icon_table.__image_data st !! _) as [cached|]; [discriminate H|].
    destruct (open_rb _) as [read|e']; [discriminate H|].
    injection H as _ <-. reflexivity.
Qed.

Lemma get_piirc_config_run read (st : ressources.State) :
  ressources.get_piirc_config read st =
    match ressources.__piirc_config st with
    | Some config => (Ok config, st)
    | None =>
        match read with
        | Ok content =>
            (Ok content, {| ressources.__piirc_config := Some content;
                            ressources.opened := S (ressources.opened st) |})
        | Raise e =>
            (Raise e, {| ressources.__piirc_config := None;
                         ressources.opened := S (ressources.opened st) |})
        end
    end.
Proof.
  unfold ressources.get_piirc_config. run.
  destruct (ressources.__piirc_config st) eqn:E; [reflexivity|].
  destruct read; simpl; rewrite ?E; reflexivity.
Qed.

(** X20. The configuration file is read at most once with success: after
    a call of [get_piirc_config] that returned, every further call
    returns the same text without opening the file; a call that raised
    leaves the configuration unset, so the next call opens the file
    again. *)
Theorem get_piirc_config_reads_once read (st : ressources.State) :
  (forall content st',
     ressources.get_piirc_config read st = (Ok content, st') ->
     ressources.get_piirc_config read st' = (Ok content, st')) /\
  (forall e st',
     ressources.get_piirc_config read st = (Raise e, st') ->
     ressources.__piirc_config st' = None /\
     ressources.opened (snd (ressources.get_piirc_config read st')) =
       S (ressources.opened st')).
Proof.
  split.
  - intros content st' H. rewrite get_piirc_config_run in H.
    destruct (ressources.__piirc_config st) as [config|] eqn:E.
    + injection H as <- <-. rewrite get_piirc_config_run, E. reflexivity.
    + destruct read as [text|e]; [|discriminate H].
      injection H as <- <-. rewrite get_piirc_config_run. reflexivity.
  - intros e st' H. rewrite get_piirc_config_run in H.
    destruct (ressources.__piirc_config st) as [config|] eqn:E; [discriminate H|].
    destruct read as [text|e'] eqn:R; [discriminate H|].
    injection H as _ <-. split; [reflexivity|].
    rewrite get_piirc_config_run. reflexivity.
Qed.

Lemma read_icon_opens_the_file_once_witness :
  icon_table.__read_icon icons_dir icon_disk "play-pause.png"
      (snd (icon_table.__read_icon icons_dir icon_disk "play-pause.png" no_icons_read)) =
    (Ok "PNG:/opt/driver/icons/play-pause.png",
     snd (icon_table.__read_icon icons_dir icon_disk "play-pause.png" no_icons_read)) /\
  icon_table.__image_data
      (snd (icon_table.__read_icon icons_dir icon_disk "missing.png" no_icons_read)) = ∅.
Proof.
  split.
  - apply (proj1 (read_icon_opens_the_file_once icons_dir icon_disk "play-pause.png"
                    no_icons_read)).
    reflexivity.
  - apply (proj2 (read_icon_opens_the_file_once icons_dir icon_disk "missing.png"
                    no_icons_read) (OSError "No such file or directory")).
    reflexivity.
Defined.

Lemma get_piirc_config_reads_once_witness :
  ressources.get_piirc_config (Ok "{}")
      (snd (ressources.get_piirc_config (Ok "{}") config_unread)) =
    (Ok "{}", {| ressources.__piirc_config := Some "{}"; ressources.opened := 1 |}) /\
  ressources.__piirc_config
      (snd (ressources.get_piirc_config (Raise (OSError "No such file or directory"))
              config_unread)) = None.
Proof.
  split.
  - apply (proj1 (get_piirc_config_reads_once (Ok "{}") config_unread)). reflexivity.
  - apply (proj2 (get_piirc_config_reads_once (Raise (OSError "No such file or directory"))
                    config_unread) (OSError "No such file or directory")).
    reflexivity.
Defined.

(** ** The catalog over the icon table *)

Lemma read_icon_sound_step dir open_rb filename (st : icon_table.State) :
  icon_table.table_sound open_rb st ->
  fst (icon_table.__read_icon dir open_rb filename st) =
    open_rb (icon_table.os_path_join dir filename) /\
  icon_table.table_sound open_rb (snd (icon_table.__read_icon dir open_rb filename st)).
Proof.
  intros Hsound. rewrite read_icon_run.
  destruct (icon_table.__image_data st !! _) as [data|] eqn:Hentry.
  - split; [symmetry; apply Hsound; exact Hentry|exact Hsound].
  - destruct (open_rb _) as [data|e] eqn:Hread; (split; [reflexivity|]); [|exact Hsound].
    intros p d. simpl. rewrite lookup_insert. case_decide as Hp; [|apply Hsound].
    intros Hd. injection Hd as <-. rewrite <- Hp. exact Hread.
Qed.

(** One item of the catalog: the icon through the table, then the
    command built from it. *)
Lemma icon_item_refines {A} dir open_rb filename (k : string -> result A)
    (st : icon_table.State) :
  icon_table.table_sound open_rb st ->
  fst ((icon <- icon_table.__read_icon dir open_rb filename ;; lift (k icon)) st) =
    (icon <~ open_rb (icon_table.os_path_join dir filename) ;; k icon) /\
  icon_table.table_sound open_rb
    (snd ((icon <- icon_table.__read_icon dir open_rb filename ;; lift (k icon)) st)).
Proof.
  intros Hsound.
  destruct (read_icon_sound_step dir open_rb filename st Hsound) as [Hfst Hsnd].
  unfold bind, lift.
  destruct (icon_table.__read_icon dir open_rb filename st) as [[icon|e] st'];
    simpl in *; rewrite <- Hfst; split; first [reflexivity | exact Hsnd].
Qed.

Lemma sequenceM_cons {S A} (m : M S A) (rest : list (M S A)) (st : S) :
  catalog_table.sequenceM (m :: rest) st =
    match m st with
    | (Ok x, st1) =>
        match catalog_table.sequenceM rest st1 with
        | (Ok xs, st2) => (Ok (x :: xs), st2)
        | (Raise e, st2) => (Raise e, st2)
        end
    | (Raise e, st1) => (Raise e, st1)
    end.
Proof.
  simpl. unfold bind, ret. destruct (m st) as [[x|e] st1]; [|reflexivity].
  destruct (catalog_table.sequenceM rest st1) as [[xs|e] st2]; reflexivity.
Qed.

Lemma sequenceM_refines {S A} (P : S -> Prop) (items : list (M S A))
    (pure : list (result A)) :
  Forall2 (A := M S A)
    (fun m r => forall st, P st -> fst (m st) = r /\ P (snd (m st))) items pure ->
  forall st, P st ->
    fst (catalog_table.sequenceM items st) = sequence pure /\
    P (snd (catalog_table.sequenceM items st)).
Proof.
  induction 1 as [|m r items pure Hm _ IH]; intros st HP.
  - split; [reflexivity|exact HP].
  - destruct (Hm st HP) as [Hfst Hsnd]. rewrite sequenceM_cons.
    destruct (m st) as [[x|e] st1]; simpl in Hfst, Hsnd; rewrite <- Hfst; simpl;
      [|split; [reflexivity|exact Hsnd]].
    destruct (IH st1 Hsnd) as [Hfst' Hsnd'].
    destruct (catalog_table.sequenceM items st1) as [[xs|e] st2];
      simpl in Hfst', Hsnd'; rewrite <- Hfst'; split; first [reflexivity | exact Hsnd'].
Qed.

(** On a table that holds what the files hold, [create_commands] over
    the table has the outcome of [create_commands] with every icon taken
    from its file, and leaves such a table. *)
Lemma create_commands_table_refines env dir open_rb device_id (st : icon_table.State) :
  icon_table.table_sound open_rb st ->
  fst (catalog_table.create_commands env dir open_rb device_id st) =
    commands.create_commands (catalog_table.with_icon_files env dir open_rb) device_id /\
  icon_table.table_sound open_rb
    (snd (catalog_table.create_commands env dir open_rb device_id st)).
Proof.
  unfold catalog_table.create_commands, commands.create_commands.
  apply (sequenceM_refines (icon_table.table_sound open_rb)).
  repeat (apply List.Forall2_cons;
          [intros st' Hsound'; exact (icon_item_refines dir open_rb _ _ st' Hsound')|]).
  apply List.Forall2_nil.
Qed.

(** X14. When the table of [__read_icon] holds what the files hold, as
    it does while it is empty, [create_commands] returns a catalog
    exactly when each of the nineteen icon files can be read and
    [lirc.Client()] returns or raises [LircdConnectionError]: a missing
    icon, or another exception of [lirc], leaves no catalog and so no
    driver. *)
Theorem create_commands_returns_iff_on_sound_table env dir open_rb (device_id : string)
    (st : icon_table.State) :
  icon_table.table_sound open_rb st ->
  (exists cmds,
     fst (catalog_table.create_commands env dir open_rb device_id st) = Ok cmds) <->
  (forall f, f ∈ icons.icon_files ->
     exists bytes, open_rb (icon_table.os_path_join dir f) = Ok bytes) /\
  (forall e, lirc_connect env = Raise e -> e = LircdConnectionError).
Proof.
  intros Hsound.
  destruct (create_commands_table_refines env dir open_rb device_id st Hsound) as [-> _].
  apply (create_commands_returns_iff (catalog_table.with_icon_files env dir open_rb)).
Qed.

Lemma create_commands_returns_iff_on_sound_table_witness :
  (exists cmds,
     fst (catalog_table.create_commands env_no_lirc icons_dir icon_disk dmp_address
            no_icons_read) = Ok cmds) <->
  (forall f, f ∈ icons.icon_files ->
     exists bytes, icon_disk (icon_table.os_path_join icons_dir f) = Ok bytes) /\
  (forall e, lirc_connect env_no_lirc = Raise e -> e = LircdConnectionError).
Proof.
  apply (create_commands_returns_iff_on_sound_table env_no_lirc icons_dir icon_disk
           dmp_address no_icons_read).
  intros p d H. simpl in H. rewrite lookup_empty in H. discriminate H.
Defined.

(** Why the table has to hold what the files hold: after a run that read
    the icons, [create_commands] returns from the table also when no file
    can be read any more. *)
Example create_commands_from_stale_table :
  (exists cmds,
     fst (catalog_table.create_commands env_no_lirc icons_dir empty_disk dmp_address
            icons_read) = Ok cmds) /\
  forall f, empty_disk (icon_table.os_path_join icons_dir f) =
              Raise (OSError "No such file or directory").
Proof.
  split; [|reflexivity]. eexists. vm_compute. reflexivity.
Qed.
